(** * HumanValidator: validation hooks of the human-attribute model

  Shallow embedding of [ultralytics/models/yolo/human/val.py].

  The class [HumanValidator] overrides a handful of hooks of the host
  validation loop.  The hooks are embedded as computations in a small
  state-and-exception monad over a [world] that holds the Python heap of
  batch dictionaries, the validator object itself and the observable
  effects (label files, plots, log lines).  Tensors are embedded with
  their device, dtype, shape and row-major data; tensor elements are IEEE
  754 binary32 numbers ([spec_float] at precision 24), which contain every
  value of the smaller dtypes (bool, uint8, float16) exactly. *)

From Stdlib Require Import ZArith List Bool Lia Ascii.
From Stdlib Require Import SpecFloat.
From stdpp Require Import gmap strings list pretty.

Set Warnings "-register-all".

Open Scope Z_scope.

(** ** IEEE 754 binary32 scalars *)

Module F32.

Definition prec : Z := 24.
Definition emax : Z := 128.

Definition float : Type := spec_float.

Definition zero : float := S754_zero false.
Definition one : float := S754_finite false 8388608 (-23).
Definition nan : float := S754_nan.

Definition of_Z (z : Z) : float := binary_normalize prec emax z 0 false.
Definition of_bool (b : bool) : float := if b then one else zero.

Definition sub : float -> float -> float := SFsub prec emax.
Definition div : float -> float -> float := SFdiv prec emax.
Definition abs : float -> float := SFabs.
Definition eqb : float -> float -> bool := SFeqb.
Definition ltb : float -> float -> bool := SFltb.
Definition leb : float -> float -> bool := SFleb.

Definition is_nan (x : float) : bool :=
  match x with S754_nan => true | _ => false end.

Definition is_zero (x : float) : bool :=
  match x with S754_zero _ => true | _ => false end.


(** [std::max] and [std::min] of the C++ runtime, as the clamp kernel
    uses them: the first argument is kept unless it is strictly on the
    wrong side of the second. *)
Definition fmax (a b : float) : float := if ltb a b then b else a.
Definition fmin (a b : float) : float := if ltb b a then b else a.

(** [clamp] propagates NaN, otherwise it is [min (max x lo) hi]. *)
Definition clamp (lo hi x : float) : float :=
  if is_nan x then x else fmin (fmax x lo) hi.

(** Rounding of a binary32 number to binary16 ([.half()]). *)
Definition round_half (x : float) : float :=
  match x with
  | S754_finite s m e => binary_round 11 16 s m e
  | _ => x
  end.

(** Membership in the closed interval [[0,1]]; false on NaN. *)
Definition in_unit (x : float) : bool := leb zero x && leb x one.

End F32.

(** ** Python exceptions and results *)

Inductive pyerr :=
| KeyError (k : string)
| IndexError
| TypeError
| ValueError
| RuntimeError.

Inductive res (A : Type) :=
| Ok (a : A)
| Raise (e : pyerr).
Arguments Ok {A} a.
Arguments Raise {A} e.

Definition res_bind {A B} (r : res A) (k : A -> res B) : res B :=
match r with
| Ok a => k a
| Raise e => Raise e
end.

Notation "'attempt' x <- r ; k" := (res_bind r (fun x => k))
  (at level 10, x name, r at level 100, k at level 200).

(** ** Tensors *)

Inductive device := CPU | CUDA (i : nat).

Inductive dtype := torch_bool | torch_uint8 | torch_int64 | torch_float16 | torch_float32.

#[export] Instance device_eq_dec : EqDecision device.
Proof. solve_decision. Defined.

#[export] Instance dtype_eq_dec : EqDecision dtype.
Proof. solve_decision. Defined.

Record tensor := Tensor {
t_device : device;
t_dtype : dtype;
t_shape : list nat;
t_data : list F32.float
}.

Definition numel (s : list nat) : nat := foldr Nat.mul 1%nat s.

(** A tensor is well formed when its data fills its shape. *)
Definition t_wf (t : tensor) : Prop := length (t_data t) = numel (t_shape t).

Module Torch.

(** *** dtype and device rules *)

Definition rank_of (d : dtype) : nat :=
  match d with
  | torch_bool => 0
  | torch_uint8 => 1
  | torch_int64 => 2
  | torch_float16 => 3
  | torch_float32 => 4
  end%nat.

Definition promote (a b : dtype) : dtype :=
  if (rank_of a <? rank_of b)%nat then b else a.

Definition is_floating (d : dtype) : bool :=
  match d with torch_float16 | torch_float32 => true | _ => false end.

(** Results of dtype float16 are rounded to binary16, the other dtypes
    keep the binary32 result. *)
Definition round_to (d : dtype) (x : F32.float) : F32.float :=
  match d with torch_float16 => F32.round_half x | _ => x end.

Definition is_cpu_scalar (t : tensor) : bool :=
  bool_decide (t_shape t = []) && bool_decide (t_device t = CPU).

(** Operands must live on one device, except that a 0-dim CPU tensor
    mixes with anything. *)
Definition devices_ok (a b : tensor) : bool :=
  bool_decide (t_device a = t_device b) || is_cpu_scalar a || is_cpu_scalar b.

Definition result_device (a b : tensor) : device :=
  if is_cpu_scalar a then t_device b else t_device a.

(** *** Broadcasting *)

Fixpoint bshape_rev (s1 s2 : list nat) : option (list nat) :=
  match s1, s2 with
  | [], s => Some s
  | s, [] => Some s
  | a :: s1', b :: s2' =>
      match bshape_rev s1' s2' with
      | None => None
      | Some r =>
          if decide (a = b) then Some (a :: r)
          else if decide (a = 1%nat) then Some (b :: r)
          else if decide (b = 1%nat) then Some (a :: r)
          else None
      end
  end.

Definition broadcast_shapes (s1 s2 : list nat) : option (list nat) :=
  match bshape_rev (rev s1) (rev s2) with
  | Some r => Some (rev r)
  | None => None
  end.

Definition pad_shape (n : nat) (s : list nat) : list nat :=
  replicate (n - length s) 1%nat ++ s.

(** [expand s t d]: the data [d] of shape [s] viewed at shape [t], where
    [s] and [t] have the same rank and differ only where [s] has size 1. *)
Fixpoint expand (s t : list nat) (d : list F32.float) : list F32.float :=
  match s, t with
  | a :: s', b :: t' =>
      let r := numel s' in
      if decide (a = b)
      then concat (map (fun i => expand s' t' (take r (drop (i * r) d))) (seq 0 a))
      else concat (replicate b (expand s' t' d))
  | _, _ => d
  end.

Definition binop (rd : dtype -> dtype -> dtype)
    (f : F32.float -> F32.float -> F32.float) (a b : tensor) : res tensor :=
  if negb (devices_ok a b) then Raise RuntimeError else
  match broadcast_shapes (t_shape a) (t_shape b) with
  | None => Raise RuntimeError
  | Some s =>
      let n := length s in
      let d := rd (t_dtype a) (t_dtype b) in
      Ok {| t_device := result_device a b;
            t_dtype := d;
            t_shape := s;
            t_data := map (round_to d)
                        (zip_with f (expand (pad_shape n (t_shape a)) s (t_data a))
                                    (expand (pad_shape n (t_shape b)) s (t_data b))) |}
  end.

(** [a - b]; subtracting two bool tensors is refused. *)
Definition sub (a b : tensor) : res tensor :=
  if bool_decide (t_dtype a = torch_bool) && bool_decide (t_dtype b = torch_bool)
  then Raise RuntimeError
  else binop promote F32.sub a b.

(** [a / b] is true division: integer operands give float32. *)
Definition div_dtype (a b : dtype) : dtype :=
  let d := promote a b in if is_floating d then d else torch_float32.

Definition div (a b : tensor) : res tensor := binop div_dtype F32.div a b.

(** [a == b] *)
Definition eq (a b : tensor) : res tensor :=
  binop (fun _ _ => torch_bool) (fun x y => F32.of_bool (F32.eqb x y)) a b.

(** [t.abs()] *)
Definition abs (t : tensor) : tensor :=
  {| t_device := t_device t; t_dtype := t_dtype t; t_shape := t_shape t;
     t_data := map F32.abs (t_data t) |}.

(** [1 - t], with the Python integer 1 on the left. *)
Definition rsub_one (t : tensor) : res tensor :=
  if bool_decide (t_dtype t = torch_bool) then Raise RuntimeError
  else Ok {| t_device := t_device t; t_dtype := t_dtype t; t_shape := t_shape t;
             t_data := map (fun x => round_to (t_dtype t) (F32.sub F32.one x)) (t_data t) |}.

(** [t.clip(0, 1)] *)
Definition clip01 (t : tensor) : tensor :=
  {| t_device := t_device t; t_dtype := t_dtype t; t_shape := t_shape t;
     t_data := map (F32.clamp F32.zero F32.one) (t_data t) |}.

(** [t.to(device)] *)
Definition to (dev : device) (t : tensor) : tensor :=
  {| t_device := dev; t_dtype := t_dtype t; t_shape := t_shape t; t_data := t_data t |}.

(** [t.half()] *)
Definition half (t : tensor) : tensor :=
  {| t_device := t_device t; t_dtype := torch_float16; t_shape := t_shape t;
     t_data := map F32.round_half (t_data t) |}.

(** [t.float()]: every element already is a binary32 number. *)
Definition float (t : tensor) : tensor :=
  {| t_device := t_device t; t_dtype := torch_float32; t_shape := t_shape t;
     t_data := t_data t |}.

(** [len(t)] *)
Definition len (t : tensor) : res nat :=
  match t_shape t with
  | [] => Raise TypeError
  | n :: _ => Ok n
  end.

(** [torch.arange(n)] *)
Definition arange (n : nat) : tensor :=
  {| t_device := CPU; t_dtype := torch_int64; t_shape := [n];
     t_data := map (fun i => F32.of_Z (Z.of_nat i)) (seq 0 n) |}.

(** [t.view(-1)] *)
Definition view_flat (t : tensor) : tensor :=
  {| t_device := t_device t; t_dtype := t_dtype t; t_shape := [numel (t_shape t)];
     t_data := t_data t |}.

(** *** Indexing along dimension 1 *)

(** The block of [w] consecutive entries of dimension 1 that starts at
    column [j] of row [i], for a tensor of shape [n :: c :: rest] whose
    trailing dimensions hold [r] elements. *)
Definition block (c r : nat) (d : list F32.float) (i j w : nat) : list F32.float :=
  take (w * r) (drop ((i * c + j) * r) d).

(** [t[:, j]] *)
Definition select_col (j : nat) (t : tensor) : res tensor :=
  match t_shape t with
  | n :: c :: rest =>
      if (j <? c)%nat then
        let r := numel rest in
        Ok {| t_device := t_device t; t_dtype := t_dtype t; t_shape := n :: rest;
              t_data := concat (map (fun i => block c r (t_data t) i j 1) (seq 0 n)) |}
      else Raise IndexError
  | _ => Raise IndexError
  end.

(** [t[:, a:b]] and [t[:, a:]] ([b = None]); slice bounds are clamped. *)
Definition slice_cols (a : nat) (b : option nat) (t : tensor) : res tensor :=
  match t_shape t with
  | n :: c :: rest =>
      let lo := Nat.min a c in
      let hi := match b with Some b => Nat.min b c | None => c end in
      let w := (hi - lo)%nat in
      let r := numel rest in
      Ok {| t_device := t_device t; t_dtype := t_dtype t; t_shape := n :: w :: rest;
            t_data := concat (map (fun i => block c r (t_data t) i lo w) (seq 0 n)) |}
  | _ => Raise IndexError
  end.

(** Index of the maximum: the first NaN if there is one, otherwise the
    first largest value. *)
Definition better (x best : F32.float) : bool :=
  if F32.is_nan best then false
  else if F32.is_nan x then true
  else F32.ltb best x.

Fixpoint argmax_from (i besti : nat) (best : F32.float) (l : list F32.float) : nat :=
  match l with
  | [] => besti
  | x :: l' =>
      if better x best then argmax_from (S i) i x l'
      else argmax_from (S i) besti best l'
  end.

Definition argmax_list (l : list F32.float) : nat :=
  match l with
  | [] => 0%nat
  | x :: l' => argmax_from 1 0 x l'
  end.

(** The entries along dimension 1 at row [i] and trailing offset [k]. *)
Definition lane (c r : nat) (d : list F32.float) (i k : nat) : list F32.float :=
  map (fun j => nth ((i * c + j) * r + k) d F32.zero) (seq 0 c).

(** [t.argmax(1, keepdim)] and [torch.argmax(t, dim=1)] *)
Definition argmax1 (keepdim : bool) (t : tensor) : res tensor :=
  match t_shape t with
  | n :: c :: rest =>
      if (c =? 0)%nat then Raise IndexError else
      let r := numel rest in
      Ok {| t_device := t_device t; t_dtype := torch_int64;
            t_shape := if keepdim then n :: 1%nat :: rest else n :: rest;
            t_data :=
              concat (map (fun i =>
                map (fun k => F32.of_Z (Z.of_nat (argmax_list (lane c r (t_data t) i k))))
                    (seq 0 r)) (seq 0 n)) |}
  | _ => Raise IndexError
  end.

(** [torch.cat(ts, dim=1)] *)
Definition cat_compatible (a b : tensor) : bool :=
  match t_shape a, t_shape b with
  | n :: _ :: rest, n' :: _ :: rest' =>
      bool_decide (n = n') && bool_decide (rest = rest')
      && bool_decide (t_device a = t_device b)
  | _, _ => false
  end.

Definition width (t : tensor) : nat :=
  match t_shape t with _ :: c :: _ => c | _ => 0%nat end.

Definition cat1 (ts : list tensor) : res tensor :=
  match ts with
  | [] => Raise RuntimeError
  | t0 :: rest_ts =>
      match t_shape t0 with
      | n :: _ :: rest =>
          if forallb (cat_compatible t0) rest_ts then
            let r := numel rest in
            let d := foldr promote torch_bool (map t_dtype ts) in
            Ok {| t_device := t_device t0; t_dtype := d;
                  t_shape := n :: foldr Nat.add 0%nat (map width ts) :: rest;
                  t_data :=
                    concat (map (fun i =>
                      concat (map (fun t => block (width t) r (t_data t) i 0 (width t)) ts))
                      (seq 0 n)) |}
          else Raise RuntimeError
      | _ => Raise IndexError
      end
  end.

End Torch.

(** ** Python values, the heap and the validator object *)

Definition loc : Type := positive.

(** A path is the list of its components; [p / s] appends one. *)
Definition path : Type := list string.
Definition path_div (p : path) (s : string) : path := p ++ [s].

Inductive pyval :=
| PyNone
| PyBool (b : bool)
| PyInt (z : Z)
| PyStr (s : string)
| PyTensor (t : tensor)
| PyTuple (l : list pyval)
| PyList (l : list pyval)
| PyDict (l : loc)
| PyObject (id : nat).

(** The wrapper [ultralytics.engine.results.Human] around a prediction
    tensor is not part of this file; the validator reads five attribute
    tensors from it and iterates over it.  It is taken as given by the host
    (see [Host] below). *)
Module Human.

Record t := Build {
  weight : tensor;
  height : tensor;
  age : tensor;
  cls_gender : tensor;
  cls_ethnicity : tensor;
  items : list pyval
}.

End Human.

(** The fields of [self.args] this class reads or writes. *)
Record args_t := Args {
  task : string;
  half : bool;
  save_txt : bool;
  save_conf : bool;
  workers : nat
}.

(** Modelled from the spec: the class [HumanMetrics] of
    [ultralytics.utils.metrics] is missing.  The spec describes it as the
    accumulator "collecting per-batch per-attribute accuracy arrays"; the
    validator uses its dictionary [attrs_stats] of lists and sets its
    [speed] and [confusion_matrix]. *)
Record HumanMetrics_t := Metrics {
  attrs_stats : gmap string (list tensor);
  speed : pyval;
  confusion_matrix : pyval
}.

Definition attr_names : list string :=
  ["weight"; "height"; "gender"; "age"; "ethnicity"]%string.

(** Modelled from the spec: [HumanMetrics()], a fresh accumulator with an
    empty list for each of the five attributes. *)
Definition HumanMetrics : HumanMetrics_t :=
  {| attrs_stats := list_to_map (map (fun k => (k, [])) attr_names);
     speed := PyNone;
     confusion_matrix := PyNone |}.

Record validator := Validator {
  v_args : args_t;
  v_device : device;
  v_save_dir : path;
  v_names : pyval;
  v_on_plot : pyval;
  v_speed : pyval;
  v_confusion_matrix : pyval;
  v_metrics : HumanMetrics_t
}.

(** What the hooks do to the outside: label files, plots and log lines. *)
Inductive effect :=
| SaveTxt (file : path) (human : pyval) (save_conf : bool) (h w : Z) (names : pyval)
| PlotImages (images : pyval) (batch_idx cls : tensor) (attributes : pyval)
    (fname : path) (names on_plot : pyval)
| LogInfo (line : string).

Record world := World {
  heap : gmap loc (gmap string pyval);
  self : validator;
  trace : list effect
}.

(** ** The state-and-exception monad

    A computation runs on a world and yields a value or a raised
    exception, together with the world at that point: an exception does not
    undo the mutations made before it. *)

Definition M (A : Type) : Type := world -> res A * world.

Definition ret {A} (a : A) : M A := fun w => (Ok a, w).
Definition raise {A} (e : pyerr) : M A := fun w => (Raise e, w).
Definition lift {A} (r : res A) : M A := fun w => (r, w).
Definition gets {A} (f : world -> A) : M A := fun w => (Ok (f w), w).
Definition modify (f : world -> world) : M unit := fun w => (Ok tt, f w).

Definition bind {A B} (m : M A) (k : A -> M B) : M B :=
  fun w => match m w with
           | (Ok a, w') => k a w'
           | (Raise e, w') => (Raise e, w')
           end.

Notation "'do' x <- m ; k" := (bind m (fun x => k))
  (at level 10, x name, m at level 100, k at level 200).
Notation "m ;; k" := (bind m (fun _ => k))
  (at level 100, k at level 200, right associativity).

Fixpoint for_each {A} (f : A -> M unit) (l : list A) : M unit :=
  match l with
  | [] => ret tt
  | x :: l' => f x ;; for_each f l'
  end.

(** [enumerate(l)] *)
Definition enumerate {A} (l : list A) : list (nat * A) := zip (seq 0 (length l)) l.

(** *** Heap and value access *)

Definition set_heap (h : gmap loc (gmap string pyval)) (w : world) : world :=
  {| heap := h; self := self w; trace := trace w |}.

Definition set_metrics (m : HumanMetrics_t) (w : world) : world :=
  {| heap := heap w;
     self := {| v_args := v_args (self w); v_device := v_device (self w);
                v_save_dir := v_save_dir (self w); v_names := v_names (self w);
                v_on_plot := v_on_plot (self w); v_speed := v_speed (self w);
                v_confusion_matrix := v_confusion_matrix (self w);
                v_metrics := m |};
     trace := trace w |}.

Definition emit (e : effect) : M unit :=
  modify (fun w => {| heap := heap w; self := self w; trace := trace w ++ [e] |}).

(** [batch[k]] *)
Definition getitem (batch : loc) (k : string) : M pyval :=
  fun w => match heap w !! batch with
           | Some d => match d !! k with
                       | Some v => (Ok v, w)
                       | None => (Raise (KeyError k), w)
                       end
           | None => (Raise RuntimeError, w)
           end.

(** [batch[k] = v] *)
Definition setitem (batch : loc) (k : string) (v : pyval) : M unit :=
  fun w => match heap w !! batch with
           | Some d => (Ok tt, set_heap (<[batch := <[k := v]> d]> (heap w)) w)
           | None => (Raise RuntimeError, w)
           end.

(** A value used as a tensor; anything else has none of the tensor
    methods or indexing forms used here. *)
Definition tensor_of (v : pyval) : res tensor :=
  match v with
  | PyTensor t => Ok t
  | _ => Raise TypeError
  end.

Definition as_tensor (v : pyval) : M tensor := lift (tensor_of v).

(** [v[i]] on a tuple or list *)
Definition subscript (v : pyval) (i : nat) : res pyval :=
  match v with
  | PyTuple l | PyList l =>
      match l !! i with
      | Some x => Ok x
      | None => Raise IndexError
      end
  | _ => Raise TypeError
  end.

Definition index (v : pyval) (i : nat) : M pyval := lift (subscript v i).

(** [len(v)] *)
Definition len_of (v : pyval) : res nat :=
  match v with
  | PyTuple l | PyList l => Ok (length l)
  | PyTensor t => Torch.len t
  | _ => Raise TypeError
  end.

Definition len (v : pyval) : M nat := lift (len_of v).

(** A dimension handed to [np.zeros]. *)
Definition dim_of (v : pyval) : res Z :=
  match v with
  | PyInt z => if (z <? 0)%Z then Raise ValueError else Ok z
  | PyBool b => Ok (Z.b2z b)
  | _ => Raise TypeError
  end.

Definition as_dim (v : pyval) : M Z := lift (dim_of v).

(** [self.metrics.attrs_stats[k].append(x)] *)
Definition append_stat (k : string) (x : tensor) : M unit :=
  fun w => let m := v_metrics (self w) in
           match attrs_stats m !! k with
           | Some l =>
               (Ok tt, set_metrics {| attrs_stats := <[k := l ++ [x]]> (attrs_stats m);
                                      speed := speed m;
                                      confusion_matrix := confusion_matrix m |} w)
           | None => (Raise (KeyError k), w)
           end.

(** ** The host framework

    Everything the class calls and this file does not define: the
    [Human] wrapper, [pathlib]'s stem, the base class constructor, the
    dataset and dataloader builders, and the methods of the metrics object.
    The hooks are defined for an arbitrary host. *)

Record Host := {
  Human_new : pyval -> res Human.t;
  Path_stem : string -> string;
  BaseValidator_init : pyval -> pyval -> pyval -> pyval -> pyval -> res validator;
  HumanDataset : pyval -> bool -> args_t -> string -> res pyval;
  colorstr : string -> string;
  build_dataloader : pyval -> pyval -> nat -> Z -> res pyval;
  metrics_process : HumanMetrics_t -> res HumanMetrics_t;
  metrics_results_dict : HumanMetrics_t -> pyval;
  metrics_keys : HumanMetrics_t -> list string;
  metrics_mean_results : HumanMetrics_t -> res (list F32.float);
  format_3g : F32.float -> string
}.

(** [%Ns]: right-justify in a field of width [n]. *)
Definition rjust (n : nat) (s : string) : string :=
  String.concat "" (replicate (n - String.length s) " "%string) +:+ s.

Section Hooks.

Context (host : Host).

(** [HumanValidator.__init__] *)
Definition HumanValidator_init (dataloader save_dir pbar args _callbacks : pyval)
    : res validator :=
  attempt v <- BaseValidator_init host dataloader save_dir pbar args _callbacks;
  Ok {| v_args := {| task := "human"; half := half (v_args v);
                     save_txt := save_txt (v_args v); save_conf := save_conf (v_args v);
                     workers := workers (v_args v) |};
        v_device := v_device v; v_save_dir := v_save_dir v; v_names := v_names v;
        v_on_plot := v_on_plot v; v_speed := v_speed v;
        v_confusion_matrix := v_confusion_matrix v;
        v_metrics := HumanMetrics |}.

(** [build_dataset] *)
Definition build_dataset (img_path : pyval) (mode : string) (batch : pyval) : M pyval :=
  do a <- gets (fun w => v_args (self w));
  lift (HumanDataset host img_path (bool_decide (mode = "train"%string)) a
          (colorstr host (mode +:+ ": "))).

(** [preprocess] *)
Definition preprocess (batch : loc) : M loc :=
  do dev <- gets (fun w => v_device (self w));
  do v <- getitem batch "img";
  do img <- as_tensor v;
  setitem batch "img" (PyTensor (Torch.to dev img)) ;;
  do hf <- gets (fun w => half (v_args (self w)));
  do v <- getitem batch "img";
  do img <- as_tensor v;
  setitem batch "img" (PyTensor (if hf then Torch.half img else Torch.float img)) ;;
  do v <- getitem batch "attributes";
  do a <- as_tensor v;
  setitem batch "attributes" (PyTensor (Torch.float (Torch.to dev a))) ;;
  ret batch.

(** [postprocess] *)
Definition postprocess (preds : pyval) : M pyval :=
  match preds with
  | PyTuple l | PyList l =>
      match l with
      | x :: _ => ret x
      | [] => raise IndexError
      end
  | _ => ret preds
  end.

(** [save_one_txt]: the blank image needs the two leading entries of
    [shape] as its dimensions; the [Results] object then writes [file]. *)
Definition save_one_txt (predn : pyval) (save_conf : bool) (shape : pyval) (file : path)
    : M unit :=
  do s0 <- index shape 0;
  do s1 <- index shape 1;
  do h <- as_dim s0;
  do w <- as_dim s1;
  do names <- gets (fun w => v_names (self w));
  emit (SaveTxt file predn save_conf h w names).

(** [1 - (p - g).abs() / g] *)
Definition rel_acc (p g : tensor) : res tensor :=
  attempt d <- Torch.sub p g;
  attempt q <- Torch.div (Torch.abs d) g;
  Torch.rsub_one q.

(** [(p == g).float()] *)
Definition match_acc (p g : tensor) : res tensor :=
  attempt e <- Torch.eq p g;
  Ok (Torch.float e).

(** The label file of the [i]-th prediction. *)
Definition label_file (save_dir : path) (im_file : string) : path :=
  path_div (path_div save_dir "labels") (Path_stem host im_file +:+ ".txt").

(** [update_metrics] *)
Definition update_metrics (preds : pyval) (batch : loc) : M unit :=
  do preds <- lift (Human_new host preds);
  do v <- getitem batch "attributes";
  do gt_attrs <- as_tensor v;
  do weight <- lift (Torch.select_col 0 gt_attrs);
  do height <- lift (Torch.select_col 1 gt_attrs);
  do gender <- lift (Torch.select_col 2 gt_attrs);
  do age <- lift (Torch.select_col 3 gt_attrs);
  do ethnicity <- lift (Torch.select_col 4 gt_attrs);
  do acc_w <- lift (rel_acc (Human.weight preds) weight);
  do acc_h <- lift (rel_acc (Human.height preds) height);
  do acc_g <- lift (match_acc (Human.cls_gender preds) gender);
  do acc_a <- lift (rel_acc (Human.age preds) age);
  do acc_e <- lift (match_acc (Human.cls_ethnicity preds) ethnicity);
  append_stat "weight" (Torch.clip01 acc_w) ;;
  append_stat "height" (Torch.clip01 acc_h) ;;
  append_stat "gender" acc_g ;;
  append_stat "age" (Torch.clip01 acc_a) ;;
  append_stat "ethnicity" acc_e ;;
  do st <- gets (fun w => save_txt (v_args (self w)));
  if st then
    for_each (fun '(i, pred) =>
        do save_dir <- gets (fun w => v_save_dir (self w));
        do files <- getitem batch "im_file";
        do f <- index files i;
        match f with
        | PyStr im_file =>
            do sc <- gets (fun w => save_conf (v_args (self w)));
            do shape <- getitem batch "ori_shape";
            save_one_txt pred sc shape (label_file save_dir im_file)
        | _ => raise TypeError
        end)
      (enumerate (Human.items preds))
  else ret tt.

(** [get_desc] *)
Definition get_desc : string :=
  rjust 22 "Class" +:+ rjust 11 "acc(W)" +:+ rjust 11 "acc(H)" +:+ rjust 11 "acc(G)"
  +:+ rjust 11 "acc(A)" +:+ rjust 11 "acc(E)".

(** [get_dataloader] *)
Definition get_dataloader (dataset_path batch_size : pyval) : M pyval :=
  do dataset <- build_dataset dataset_path "val" PyNone;
  do wk <- gets (fun w => workers (v_args (self w)));
  lift (build_dataloader host dataset batch_size wk (-1)).

(** [finalize_metrics] *)
Definition finalize_metrics : M unit :=
  modify (fun w =>
    let m := v_metrics (self w) in
    let m1 := {| attrs_stats := attrs_stats m; speed := v_speed (self w);
                 confusion_matrix := confusion_matrix m |} in
    set_metrics {| attrs_stats := attrs_stats m1; speed := speed m1;
                   confusion_matrix := v_confusion_matrix (self w) |} w).

(** [get_stats] *)
Definition get_stats : M pyval :=
  do m <- gets (fun w => v_metrics (self w));
  do m' <- lift (metrics_process host m);
  modify (set_metrics m') ;;
  ret (metrics_results_dict host m').

(** [print_results]: the format has one [%11.3g] per key and must be
    filled by as many mean results. *)
Definition print_results : M unit :=
  do m <- gets (fun w => v_metrics (self w));
  do rs <- lift (metrics_mean_results host m);
  if bool_decide (length rs = length (metrics_keys host m)) then
    emit (LogInfo (rjust 22 "all" +:+
                   String.concat "" (map (fun x => rjust 11 (format_3g host x)) rs)))
  else raise TypeError.

(** [plot_val_samples] *)
Definition plot_val_samples (batch : loc) (ni : Z) : M unit :=
  do images <- getitem batch "img";
  do v <- getitem batch "img";
  do n <- len v;
  do v <- getitem batch "cls";
  do cls <- as_tensor v;
  do attributes <- getitem batch "attributes";
  do save_dir <- gets (fun w => v_save_dir (self w));
  do names <- gets (fun w => v_names (self w));
  do on_plot <- gets (fun w => v_on_plot (self w));
  emit (PlotImages images (Torch.arange n) (Torch.view_flat cls) attributes
          (path_div save_dir ("val_batch" +:+ pretty ni +:+ "_labels.jpg")) names on_plot).

(** [plot_predictions] *)
Definition plot_predictions (batch : loc) (preds : pyval) (ni : Z) : M unit :=
  do preds <- as_tensor preds;
  do g <- lift (Torch.slice_cols 3 (Some 5%nat) preds);
  do pred_gender <- lift (Torch.argmax1 true g);
  do e <- lift (Torch.slice_cols 5 None preds);
  do pred_ethnicity <- lift (Torch.argmax1 true e);
  do images <- getitem batch "img";
  do v <- getitem batch "img";
  do n <- len v;
  do cls <- lift (Torch.argmax1 false preds);
  do wh <- lift (Torch.slice_cols 0 (Some 2%nat) preds);
  do a <- lift (Torch.slice_cols 2 (Some 3%nat) preds);
  do attributes <- lift (Torch.cat1 [wh; pred_gender; a; pred_ethnicity]);
  do save_dir <- gets (fun w => v_save_dir (self w));
  do names <- gets (fun w => v_names (self w));
  do on_plot <- gets (fun w => v_on_plot (self w));
  emit (PlotImages images (Torch.arange n) cls (PyTensor attributes)
          (path_div save_dir ("val_batch" +:+ pretty ni +:+ "_pred.jpg")) names on_plot).

End Hooks.

(** ** The hooks as one interface

    The host loop calls the hooks one at a time; [call] runs one of them
    and returns its Python result. *)

Inductive hook :=
| Build_dataset (img_path : pyval) (mode : string) (batch : pyval)
| Preprocess (batch : loc)
| Postprocess (preds : pyval)
| Update_metrics (preds : pyval) (batch : loc)
| Save_one_txt (predn : pyval) (save_conf : bool) (shape : pyval) (file : path)
| Get_desc
| Get_dataloader (dataset_path batch_size : pyval)
| Finalize_metrics
| Get_stats
| Print_results
| Plot_val_samples (batch : loc) (ni : Z)
| Plot_predictions (batch : loc) (preds : pyval) (ni : Z).

Definition call (host : Host) (h : hook) : M pyval :=
  match h with
  | Build_dataset img_path mode batch => build_dataset host img_path mode batch
  | Preprocess batch => do b <- preprocess batch; ret (PyDict b)
  | Postprocess preds => postprocess preds
  | Update_metrics preds batch => update_metrics host preds batch ;; ret PyNone
  | Save_one_txt predn sc shape file => save_one_txt predn sc shape file ;; ret PyNone
  | Get_desc => ret (PyStr get_desc)
  | Get_dataloader dataset_path batch_size => get_dataloader host dataset_path batch_size
  | Finalize_metrics => finalize_metrics ;; ret PyNone
  | Get_stats => get_stats host
  | Print_results => print_results host ;; ret PyNone
  | Plot_val_samples batch ni => plot_val_samples batch ni ;; ret PyNone
  | Plot_predictions batch preds ni => plot_predictions batch preds ni ;; ret PyNone
  end.

(** The metric updates of a validation run: one [update_metrics] per
    batch, in order, stopping at the first exception. *)
Definition update_all (host : Host) (batches : list (pyval * loc)) : M unit :=
  for_each (fun '(preds, batch) => update_metrics host preds batch) batches.

(** ** The properties in the words of the specification *)

Module Spec.

(** "1 minus relative absolute error", clipped to [[0,1]]. *)
Definition relative_accuracy (p g : F32.float) : F32.float :=
  F32.clamp F32.zero F32.one (F32.sub F32.one (F32.div (F32.abs (F32.sub p g)) g)).

(** "exact-match indicator" *)
Definition exact_match (p g : F32.float) : F32.float :=
  if F32.eqb p g then F32.one else F32.zero.



End Spec.


(** Row [i] of a two-dimensional tensor with [c] columns. *)
Definition row (c : nat) (t : tensor) (i : nat) : list F32.float :=
  take c (drop (i * c) (t_data t)).

(** Entry [(i, j)] of a two-dimensional tensor with [c] columns. *)
Definition entry (c : nat) (t : tensor) (i j : nat) : option F32.float :=
  t_data t !! (i * c + j)%nat.

(** ** Shape alignment between predictions and ground truth *)

(** A one-dimensional tensor of [n] elements on device [dev]. *)
Definition vector_on (dev : device) (n : nat) (t : tensor) : Prop :=
  t_shape t = [n] /\ t_wf t /\ t_device t = dev.

(** The predictions wrapped in [h] are aligned with the ground truth
    [gt] of [n] samples: [gt] is a float32 tensor of shape [[n; 5]] (as
    [preprocess] leaves it) and each attribute of [h] is a vector of [n]
    entries on the same device. *)
Record aligned (h : Human.t) (gt : tensor) (n : nat) : Prop := {
  al_shape : t_shape gt = [n; 5%nat];
  al_wf : t_wf gt;
  al_dtype : t_dtype gt = torch_float32;
  al_weight : vector_on (t_device gt) n (Human.weight h);
  al_height : vector_on (t_device gt) n (Human.height h);
  al_age : vector_on (t_device gt) n (Human.age h);
  al_gender : vector_on (t_device gt) n (Human.cls_gender h);
  al_ethnicity : vector_on (t_device gt) n (Human.cls_ethnicity h)
}.

(** The list accumulated for attribute [k]. *)
Definition stat (k : string) (w : world) : option (list tensor) :=
  attrs_stats (v_metrics (self w)) !! k.

(** All five lists exist and hold [n] arrays each. *)
Definition balanced (n : nat) (w : world) : Prop :=
  forall k, k ∈ attr_names -> exists l, stat k w = Some l /\ length l = n.

(** The label files written so far. *)
Definition saved_files (w : world) : list path :=
  omap (fun e => match e with SaveTxt f _ _ _ _ _ => Some f | _ => None end) (trace w).

(** ** The three paragraphs of [update_metrics]

    The body of [update_metrics] computes the five accuracy arrays, then
    appends them, then writes the label files.  The three paragraphs are
    named here; [update_metrics_paragraphs] below shows that
    [update_metrics] is their sequence. *)

Definition accuracies (preds : Human.t) (gt_attrs : tensor)
    : res (tensor * tensor * tensor * tensor * tensor) :=
  attempt weight <- Torch.select_col 0 gt_attrs;
  attempt height <- Torch.select_col 1 gt_attrs;
  attempt gender <- Torch.select_col 2 gt_attrs;
  attempt age <- Torch.select_col 3 gt_attrs;
  attempt ethnicity <- Torch.select_col 4 gt_attrs;
  attempt acc_w <- rel_acc (Human.weight preds) weight;
  attempt acc_h <- rel_acc (Human.height preds) height;
  attempt acc_g <- match_acc (Human.cls_gender preds) gender;
  attempt acc_a <- rel_acc (Human.age preds) age;
  attempt acc_e <- match_acc (Human.cls_ethnicity preds) ethnicity;
  Ok (Torch.clip01 acc_w, Torch.clip01 acc_h, acc_g, Torch.clip01 acc_a, acc_e).

Definition record_accuracies (a : tensor * tensor * tensor * tensor * tensor) : M unit :=
  let '(acc_w, acc_h, acc_g, acc_a, acc_e) := a in
  append_stat "weight" acc_w ;;
  append_stat "height" acc_h ;;
  append_stat "gender" acc_g ;;
  append_stat "age" acc_a ;;
  append_stat "ethnicity" acc_e.

Definition save_label (host : Host) (batch : loc) (ip : nat * pyval) : M unit :=
  let '(i, pred) := ip in
  do save_dir <- gets (fun w => v_save_dir (self w));
  do files <- getitem batch "im_file";
  do f <- index files i;
  match f with
  | PyStr im_file =>
      do sc <- gets (fun w => save_conf (v_args (self w)));
      do shape <- getitem batch "ori_shape";
      save_one_txt pred sc shape (label_file host save_dir im_file)
  | _ => raise TypeError
  end.

Definition save_labels (host : Host) (preds : Human.t) (batch : loc) : M unit :=
  do st <- gets (fun w => save_txt (v_args (self w)));
  if st then for_each (save_label host batch) (enumerate (Human.items preds))
  else ret tt.

(** The world after more effects. *)
Definition add_trace (evs : list effect) (w : world) : world :=
  {| heap := heap w; self := self w; trace := trace w ++ evs |}.

(** Column [j] of a ground truth of [n] rows and five columns. *)
Definition gt_column (gt : tensor) (n j : nat) : list F32.float :=
  map (fun i => nth (i * 5 + j) (t_data gt) F32.zero) (seq 0 n).

(** A float32 vector of [n] accuracies on the device of the ground truth. *)
Definition accuracy_vector (gt : tensor) (n : nat) (data : list F32.float) : tensor :=
  {| t_device := t_device gt; t_dtype := torch_float32; t_shape := [n]; t_data := data |}.

(** The array of attribute [k] among the five of a batch. *)
Definition accuracy_of (k : string) (a : tensor * tensor * tensor * tensor * tensor)
    : tensor :=
  let '(acc_w, acc_h, acc_g, acc_a, acc_e) := a in
  if decide (k = "weight"%string) then acc_w
  else if decide (k = "height"%string) then acc_h
  else if decide (k = "gender"%string) then acc_g
  else if decide (k = "age"%string) then acc_a
  else acc_e.

(** The effect [ev] is the label file of prediction [i]: [pred] saved
    under [save_dir / "labels"] in the file named by the stem of the [i]-th
    image path of the batch, followed by [".txt"]. *)
Definition label_written (host : Host) (w : world) (batch : loc) (i : nat)
    (pred : pyval) (ev : effect) : Prop :=
  exists d files im_file h wd,
    heap w !! batch = Some d /\ d !! "im_file"%string = Some files
    /\ subscript files i = Ok (PyStr im_file)
    /\ ev = SaveTxt (v_save_dir (self w) ++ ["labels"%string; Path_stem host im_file +:+ ".txt"])
               pred (save_conf (v_args (self w))) h wd (v_names (self w)).

(** What a call of [update_metrics] that got past its first paragraph
    leaves behind: the world [w'] is [w] with one array appended to each of
    the five lists and with the effects [evs], one label file per
    prediction as far as the third paragraph got. *)
Definition recorded (host : Host) (batch : loc) (h : Human.t)
    (accs : tensor * tensor * tensor * tensor * tensor)
    (w : world) (r : res unit) (w' : world) : Prop :=
  exists m' evs,
    w' = add_trace evs (set_metrics m' w)
    /\ speed m' = speed (v_metrics (self w))
    /\ confusion_matrix m' = confusion_matrix (v_metrics (self w))
    /\ (forall k, k ∉ attr_names -> attrs_stats m' !! k = stat k w)
    /\ (forall k l, k ∈ attr_names -> stat k w = Some l ->
          attrs_stats m' !! k = Some (l ++ [accuracy_of k accs]))
    /\ (save_txt (v_args (self w)) = false -> evs = [] /\ r = Ok tt)
    /\ (r = Ok tt -> save_txt (v_args (self w)) = true ->
          length evs = length (Human.items h))
    /\ (forall j ev, evs !! j = Some ev ->
          exists pred, Human.items h !! j = Some pred
                       /\ label_written host w batch j pred ev).

(** The batch carries what the third paragraph of [update_metrics] reads:
    an image path for each prediction of [h], and an [ori_shape] whose two
    leading entries are dimensions. *)
Definition labels_ready (h : Human.t) (batch : loc) (w : world) : Prop :=
  exists d files shape s0 s1 hh ww,
    heap w !! batch = Some d
    /\ d !! "im_file"%string = Some files
    /\ (forall i, (i < length (Human.items h))%nat ->
          exists im_file, subscript files i = Ok (PyStr im_file))
    /\ d !! "ori_shape"%string = Some shape
    /\ subscript shape 0 = Ok s0 /\ subscript shape 1 = Ok s1
    /\ dim_of s0 = Ok hh /\ dim_of s1 = Ok ww.

(** ** Frames

    [preserves R m]: whatever [m] does and however it ends, the world it
    leaves is related by [R] to the world it started in. *)

Definition preserves {A} (R : relation world) (m : M A) : Prop :=
  forall w r w', m w = (r, w') -> R w w'.

(** The worlds agree on [args.task]. *)
Definition same_task : relation world :=
  fun w w' => task (v_args (self w')) = task (v_args (self w)).

(** The worlds agree except on the values that the dictionary [batch]
    holds under the keys [keys]. *)
Definition same_but (batch : loc) (keys : list string) : relation world :=
  fun w w' =>
    self w' = self w /\ trace w' = trace w
    /\ (forall b, b ≠ batch -> heap w' !! b = heap w !! b)
    /\ (forall d, heap w !! batch = Some d ->
          exists d', heap w' !! batch = Some d'
                     /\ forall k, k ∉ keys -> d' !! k = d !! k).

(** ** The life of a validator

    The worlds a validator [v] built by [__init__] can be in: the host
    starts it in any world, may change the heap and the effects between
    calls, and calls the hooks in any order, whether they return or raise. *)

Inductive reachable (host : Host) (v : validator) : world -> Prop :=
| reach_init (w : world) :
    self w = v -> reachable host v w
| reach_host (w w' : world) :
    reachable host v w -> self w' = self w -> reachable host v w'
| reach_call (w : world) (h : hook) (r : res pyval) (w' : world) :
    reachable host v w -> call host h w = (r, w') -> reachable host v w'.

(** ** A concrete host and batch

    A small instance on which every hook runs: a [Human] wrapper that reads
    the prediction columns as [plot_predictions] does, a two-sample batch,
    and the validator that [__init__] builds from a base validator whose
    task is ["detect"]. *)

Module Example.

Definition matrix (rows cols : nat) (l : list Z) : tensor :=
  {| t_device := CPU; t_dtype := torch_float32; t_shape := [rows; cols];
     t_data := map F32.of_Z l |}.

Definition Human_of (v : pyval) : res Human.t :=
  match v with
  | PyTensor t =>
      attempt w <- Torch.select_col 0 t;
      attempt h <- Torch.select_col 1 t;
      attempt a <- Torch.select_col 2 t;
      attempt gl <- Torch.slice_cols 3 (Some 5%nat) t;
      attempt g <- Torch.argmax1 false gl;
      attempt el <- Torch.slice_cols 5 None t;
      attempt e <- Torch.argmax1 false el;
      attempt n <- Torch.len t;
      Ok {| Human.weight := w; Human.height := h; Human.age := a;
            Human.cls_gender := g; Human.cls_ethnicity := e;
            Human.items :=
              map (fun i => PyTensor {| t_device := t_device t; t_dtype := t_dtype t;
                                        t_shape := [11%nat]; t_data := row 11 t i |})
                  (seq 0 n) |}
  | _ => Raise TypeError
  end.

(** The final component of a path without its last suffix. *)
Fixpoint upto (c : ascii) (l : list ascii) : list ascii :=
  match l with
  | [] => []
  | x :: l' => if bool_decide (x = c) then [] else x :: upto c l'
  end.

Definition stem (s : string) : string :=
  let name := rev (upto "/"%char (rev (String.list_ascii_of_string s))) in
  let r := rev name in
  let suffix := upto "."%char r in
  match drop (length suffix) r with
  | _ :: (_ :: _) as base => if bool_decide (suffix = []) then String.string_of_list_ascii name
                              else String.string_of_list_ascii (rev base)
  | _ => String.string_of_list_ascii name
  end.

Definition base_validator : validator :=
  {| v_args := {| task := "detect"; half := true; save_txt := true; save_conf := false;
                  workers := 8 |};
     v_device := CUDA 0;
     v_save_dir := ["runs"; "val"]%string;
     v_names := PyTuple [PyStr "person"];
     v_on_plot := PyNone;
     v_speed := PyNone;
     v_confusion_matrix := PyNone;
     v_metrics := {| attrs_stats := ∅; speed := PyNone; confusion_matrix := PyNone |} |}.

Definition host : Host :=
  {| Human_new := Human_of;
     Path_stem := stem;
     BaseValidator_init := fun _ _ _ _ _ => Ok base_validator;
     HumanDataset := fun _ _ _ _ => Ok (PyObject 0);
     colorstr := fun s => s;
     build_dataloader := fun _ _ _ _ => Ok (PyObject 1);
     metrics_process := fun m => Ok m;
     metrics_results_dict := fun _ => PyNone;
     metrics_keys := fun _ => [];
     metrics_mean_results := fun _ => Ok [];
     format_3g := fun _ => ""%string |}.

Definition human : validator :=
  {| v_args := {| task := "human"; half := true; save_txt := true; save_conf := false;
                  workers := 8 |};
     v_device := CUDA 0;
     v_save_dir := ["runs"; "val"]%string;
     v_names := PyTuple [PyStr "person"];
     v_on_plot := PyNone;
     v_speed := PyNone;
     v_confusion_matrix := PyNone;
     v_metrics := HumanMetrics |}.

(** Two predictions: (weight, height, age, 2 gender logits, 6 ethnicity
    logits) in the column order of [plot_predictions]. *)
Definition preds : tensor :=
  {| t_device := CUDA 0; t_dtype := torch_float32; t_shape := [2; 11]%nat;
     t_data := map F32.of_Z [70; 170; 30; 1; 2; 0; 0; 5; 0; 0; 0;
                             60; 160; 0; 3; 2; 9; 0; 5; 0; 0; 0] |}.

(** Two ground truths: (weight, height, gender, age, ethnicity). *)
Definition attributes : tensor :=
  {| t_device := CUDA 0; t_dtype := torch_float32; t_shape := [2; 5]%nat;
     t_data := map F32.of_Z [70; 160; 1; 30; 2;
                             80; 160; 0; 0; 0] |}.

Definition img : tensor :=
  {| t_device := CPU; t_dtype := torch_uint8; t_shape := [2; 3; 1; 1]%nat;
     t_data := map F32.of_Z [0; 128; 255; 7; 64; 200] |}.

Definition cls : tensor :=
  {| t_device := CPU; t_dtype := torch_int64; t_shape := [2; 1]%nat;
     t_data := map F32.of_Z [0; 0] |}.

Definition batch : loc := 1%positive.

Definition fields : gmap string pyval :=
  list_to_map [("img", PyTensor img); ("attributes", PyTensor attributes);
               ("cls", PyTensor cls);
               ("im_file", PyList [PyStr "data/val/a.jpg"; PyStr "data/val/b.tar.gz"]);
               ("ori_shape", PyTuple [PyInt 480; PyInt 640])]%string.

Definition start : world :=
  {| heap := {[ batch := fields ]}; self := human; trace := [] |}.

(** The same batch with a single prediction and with the targets zero. *)
Definition zero_preds : tensor :=
  {| t_device := CUDA 0; t_dtype := torch_float32; t_shape := [1; 11]%nat;
     t_data := map F32.of_Z [70; 50; 0; 1; 2; 0; 0; 5; 0; 0; 0] |}.

Definition zero_attributes : tensor :=
  {| t_device := CUDA 0; t_dtype := torch_float32; t_shape := [1; 5]%nat;
     t_data := map F32.of_Z [0; 0; 1; 0; 2] |}.

Definition zero_start : world :=
  {| heap := {[ batch := <["attributes"%string := PyTensor zero_attributes]> fields ]};
     self := human; trace := [] |}.

Definition wrapped : Human.t :=
  match Human_of (PyTensor preds) with
  | Ok h => h
  | Raise _ => {| Human.weight := preds; Human.height := preds; Human.age := preds;
                  Human.cls_gender := preds; Human.cls_ethnicity := preds;
                  Human.items := [] |}
  end.

End Example.

(** ** What a hook may change

    The relations between the world before and after a call that the
    frame properties of the hooks are stated with. *)

(** The worlds hold the same batch dictionaries. *)
Definition same_heap : relation world := fun w w' => heap w' = heap w.

(** The fields of the validator outside its accumulator. *)
Definition settings (v : validator)
    : args_t * device * path * pyval * pyval * pyval * pyval :=
  (v_args v, v_device v, v_save_dir v, v_names v, v_on_plot v, v_speed v,
   v_confusion_matrix v).

Definition same_settings : relation world :=
  fun w w' => settings (self w') = settings (self w).

Definition same_self : relation world := fun w w' => self w' = self w.

(** The kinds of effect, and the kind each hook may produce. *)
Inductive kind := Label | Plot | Log.

Definition kind_of (e : effect) : kind :=
  match e with
  | SaveTxt _ _ _ _ _ _ => Label
  | PlotImages _ _ _ _ _ _ _ => Plot
  | LogInfo _ => Log
  end.

Definition emits (h : hook) : option kind :=
  match h with
  | Update_metrics _ _ | Save_one_txt _ _ _ _ => Some Label
  | Plot_val_samples _ _ | Plot_predictions _ _ _ => Some Plot
  | Print_results => Some Log
  | _ => None
  end.

(** The later world has the effects of the earlier one, followed by
    effects of kind [k] only (by none at all if [k] is [None]). *)
Definition adds (k : option kind) : relation world :=
  fun w w' => exists evs, trace w' = trace w ++ evs
                          /\ Forall (fun e => k = Some (kind_of e)) evs.

(** The accumulator only grows: every list of the earlier world is a
    prefix of the list under the same key in the later one, and no key
    appears or disappears. *)
Definition grows : relation world :=
  fun w w' => forall k,
    match stat k w with
    | Some l => exists xs, stat k w' = Some (l ++ xs)
    | None => stat k w' = None
    end.

(** The hooks that assign to [self.metrics] or to its fields. *)
Definition writes_metrics (h : hook) : bool :=
  match h with
  | Update_metrics _ _ | Finalize_metrics | Get_stats => true
  | _ => false
  end.

Definition is_preprocess (h : hook) : bool :=
  match h with Preprocess _ => true | _ => false end.

Definition is_get_stats (h : hook) : bool :=
  match h with Get_stats => true | _ => false end.

(** A computation commutes with a change [f] of the world: run after
    the change it gives the same result, and the changed final world. *)
Definition commutes {A} (f : world -> world) (m : M A) : Prop :=
  forall w, m (f w) = ((m w).1, f (m w).2).

(** The world after [finalize_metrics]. *)
Definition finalized (w : world) : world := (finalize_metrics w).2.

(** A run of hook calls, in order, up to the first exception. *)
Definition run (host : Host) (hs : list hook) : M unit :=
  for_each (fun h => call host h ;; ret tt) hs.

(** ** Plot files *)

(** The plot files written so far. *)
Definition plotted (w : world) : list path :=
  omap (fun e => match e with PlotImages _ _ _ _ f _ _ => Some f | _ => None end) (trace w).

(** What tells the plots of a run apart: the hook (ground truth or
    predictions) and the index of the batch. *)
Definition plot_key (h : hook) : option (bool * Z) :=
  match h with
  | Plot_val_samples _ ni => Some (false, ni)
  | Plot_predictions _ _ ni => Some (true, ni)
  | _ => None
  end.

(** The file name of the plot with key [k]: [f"val_batch{ni}_labels.jpg"]
    in [plot_val_samples], [f"val_batch{ni}_pred.jpg"] in
    [plot_predictions]. *)
Definition plot_name (k : bool * Z) : string :=
  "val_batch" +:+ pretty k.2 +:+ (if k.1 then "_pred.jpg" else "_labels.jpg").

(** ** A single prediction *)


(** ** Pixel values *)

(** A pixel value of an 8-bit image. *)
Definition pixel (x : F32.float) : Prop := exists z, 0 <= z <= 255 /\ x = F32.of_Z z.

(** [F32.round_half] leaves a number in binary16 normal form (a mantissa
    of 11 bits); [renorm] gives the binary32 normal form of the same
    number, in which the float32 data of a tensor are held. *)
Definition renorm (x : F32.float) : F32.float :=
  match x with
  | S754_finite s m e => binary_normalize F32.prec F32.emax (if s then Z.neg m else Z.pos m) e s
  | _ => x
  end.

#[export] Instance spec_float_eq_dec : EqDecision spec_float.
Proof. solve_decision. Defined.

(** ** More concrete batches

    Variations of the example batch: a single prediction, ground truth
    still on the CPU as integers, two images with the same stem, an
    [ori_shape] with one entry per image, a batch without ground truth, and
    a host whose metrics report five values. *)

Module Scenario.


(** The validator of the example without label files. *)
Definition quiet : validator :=
  {| v_args := {| task := "human"; half := true; save_txt := false; save_conf := false;
                  workers := 8 |};
     v_device := CUDA 0;
     v_save_dir := ["runs"; "val"]%string;
     v_names := PyTuple [PyStr "person"];
     v_on_plot := PyNone;
     v_speed := PyNone;
     v_confusion_matrix := PyNone;
     v_metrics := HumanMetrics |}.

(** The ground truth as the dataloader delivers it: integers on the CPU. *)
Definition cpu_attributes : tensor :=
  {| t_device := CPU; t_dtype := torch_int64; t_shape := [2; 5]%nat;
     t_data := map F32.of_Z [70; 160; 1; 30; 2;
                             80; 160; 0; 0; 0] |}.

Definition cpu_fields : gmap string pyval :=
  <["attributes"%string := PyTensor cpu_attributes]> Example.fields.

Definition cpu_start : world :=
  {| heap := {[ Example.batch := cpu_fields ]}; self := quiet; trace := [] |}.

(** Two images that differ in directory and extension only. *)
Definition same_stem_files : pyval := PyList [PyStr "a/x.jpg"; PyStr "b/x.png"].

Definition same_stem_fields : gmap string pyval :=
  <["im_file"%string := same_stem_files]> Example.fields.

Definition same_stem_start : world :=
  {| heap := {[ Example.batch := same_stem_fields ]}; self := Example.human; trace := [] |}.




Definition no_attributes : world :=
  {| heap := {[ Example.batch := delete "attributes"%string Example.fields ]};
     self := Example.human; trace := [] |}.

(** A host whose metrics report one mean accuracy per attribute. *)
Definition host5 : Host :=
  {| Human_new := Example.Human_of;
     Path_stem := Example.stem;
     BaseValidator_init := fun _ _ _ _ _ => Ok Example.base_validator;
     HumanDataset := fun _ _ _ _ => Ok (PyObject 0);
     colorstr := fun s => s;
     build_dataloader := fun _ _ _ _ => Ok (PyObject 1);
     metrics_process := fun m => Ok m;
     metrics_results_dict := fun _ => PyNone;
     metrics_keys := fun _ => attr_names;
     metrics_mean_results := fun _ => Ok [F32.one; F32.one; F32.zero; F32.one; F32.zero];
     format_3g := fun x => if F32.is_zero x then "0"%string else "1"%string |}.

(** Three plots of a run: the ground truth and the predictions of batch
    0, the ground truth of batch 1. *)
Definition plots : list hook :=
  [Plot_val_samples Example.batch 0;
   Plot_predictions Example.batch (PyTensor Example.preds) 0;
   Plot_val_samples Example.batch 1].









End Scenario.

(** * Properties *)

(** ** Binary32 arithmetic *)

Section Rounding.

(** *** Integers below 2^24 are represented exactly *)







(** *** Rounding never produces NaN *)















(** *** The unit interval *)






End Rounding.

(** ** Lists cut into blocks *)

Lemma take1_drop {A} (d : list A) (k : nat) (x0 : A) :
  (k < length d)%nat -> take 1 (drop k d) = [nth k d x0].
Proof.
  revert k; induction d as [|x d IH]; intros k Hk; simpl in Hk; [lia|].
  destruct k as [|k]; simpl; [by rewrite take_0|].
  apply IH; lia.
Qed.

Lemma concat_singletons {A} (f : nat -> A) (l : list nat) :
  concat (map (fun i => [f i]) l) = map f l.
Proof. induction l as [|i l IH]; simpl; [done|by rewrite IH]. Qed.

Lemma map_seq_nth {A} (d : list A) (x0 : A) :
  map (fun i => nth i d x0) (seq 0 (length d)) = d.
Proof.
  apply list_eq; intros i.
  rewrite list_lookup_fmap.
  destruct (decide (i < length d)%nat) as [Hi|Hi].
  - rewrite lookup_seq_lt by done; simpl.
    destruct (lookup_lt_is_Some_2 d i Hi) as [x Hx].
    rewrite Hx; f_equal. by apply nth_lookup_Some with (d := x0) in Hx.
  - rewrite lookup_seq_ge by lia; simpl.
    symmetry; apply lookup_ge_None; lia.
Qed.




(** ** Tensor operations on aligned shapes *)

Section TorchFacts.


Lemma select_col_matrix (t : tensor) (n c j : nat) :
  t_shape t = [n; c] -> t_wf t -> (j < c)%nat ->
  Torch.select_col j t =
    Ok {| t_device := t_device t; t_dtype := t_dtype t; t_shape := [n];
          t_data := map (fun i => nth (i * c + j) (t_data t) F32.zero) (seq 0 n) |}.
Proof.
  intros Hs Hwf Hj. unfold Torch.select_col. rewrite Hs.
  apply Nat.ltb_lt in Hj as Hj'. rewrite Hj'. do 2 f_equal.
  rewrite <- (concat_singletons (fun i => nth (i * c + j) (t_data t) F32.zero)). f_equal.
  apply map_ext_in; intros i Hi. apply in_seq in Hi.
  unfold Torch.block; simpl. rewrite Nat.mul_1_r.
  apply take1_drop. unfold t_wf in Hwf. rewrite Hwf, Hs. simpl. nia.
Qed.

Lemma broadcast_vector (n : nat) : Torch.broadcast_shapes [n] [n] = Some [n].
Proof. unfold Torch.broadcast_shapes; simpl. by rewrite decide_True. Qed.

Lemma expand_vector (n : nat) (d : list F32.float) :
  length d = n -> Torch.expand [n] [n] d = d.
Proof.
  intros Hd; simpl. rewrite decide_True by done.
  transitivity (map (fun i => nth i d F32.zero) (seq 0 (length d)));
    [|apply map_seq_nth].
  rewrite Hd, <- (concat_singletons (fun i => nth i d F32.zero)). f_equal.
  apply map_ext_in; intros i Hi. apply in_seq in Hi.
  rewrite Nat.mul_1_r. apply take1_drop. lia.
Qed.

Lemma binop_vectors rd f (a b : tensor) (n : nat) :
  t_shape a = [n] -> t_shape b = [n] -> t_wf a -> t_wf b ->
  t_device a = t_device b ->
  Torch.binop rd f a b =
    Ok {| t_device := t_device b; t_dtype := rd (t_dtype a) (t_dtype b); t_shape := [n];
          t_data := map (Torch.round_to (rd (t_dtype a) (t_dtype b)))
                      (zip_with f (t_data a) (t_data b)) |}.
Proof.
  intros Ha Hb Hwa Hwb Hdev. unfold Torch.binop, Torch.devices_ok.
  rewrite bool_decide_true by done. cbn [orb negb].
  rewrite Ha, Hb, broadcast_vector.
  unfold Torch.pad_shape. cbn [length Nat.sub replicate app].
  unfold t_wf in *. rewrite Ha in Hwa; rewrite Hb in Hwb; simpl in Hwa, Hwb.
  rewrite !expand_vector by lia.
  do 2 f_equal. unfold Torch.result_device, Torch.is_cpu_scalar.
  by rewrite Ha.
Qed.

End TorchFacts.

(** ** Running computations *)

Lemma bind_ok {A B} (m : M A) (k : A -> M B) (w w' : world) (a : A) :
  m w = (Ok a, w') -> bind m k w = k a w'.
Proof. intros H. unfold bind. by rewrite H. Qed.

Lemma bind_raise {A B} (m : M A) (k : A -> M B) (w w' : world) (e : pyerr) :
  m w = (Raise e, w') -> bind m k w = (Raise e, w').
Proof. intros H. unfold bind. by rewrite H. Qed.

Lemma bind_lift {A B} (r : res A) (k : A -> M B) (w : world) :
  bind (lift r) k w = match r with Ok a => k a w | Raise e => (Raise e, w) end.
Proof. unfold bind, lift. by destruct r. Qed.

Lemma bind_gets {A B} (f : world -> A) (k : A -> M B) (w : world) :
  bind (gets f) k w = k (f w) w.
Proof. done. Qed.

Lemma bind_ret {A B} (a : A) (k : A -> M B) (w : world) : bind (ret a) k w = k a w.
Proof. done. Qed.

Lemma bind_assoc {A B C} (m : M A) (k : A -> M B) (k' : B -> M C) (w : world) :
  bind (bind m k) k' w = bind m (fun a => bind (k a) k') w.
Proof. unfold bind. destruct (m w) as [[a|e] w1]; done. Qed.

Lemma bind_cong {A B} (m : M A) (k k' : A -> M B) (w : world) :
  (forall a w', m w = (Ok a, w') -> k a w' = k' a w') -> bind m k w = bind m k' w.
Proof. intros H. unfold bind. destruct (m w) as [[a|e] w1]; [by apply H|done]. Qed.

Lemma getitem_some (batch : loc) (k : string) (w : world) (d : gmap string pyval)
    (v : pyval) :
  heap w !! batch = Some d -> d !! k = Some v -> getitem batch k w = (Ok v, w).
Proof. intros Hd Hk. unfold getitem. by rewrite Hd, Hk. Qed.

Lemma getitem_missing (batch : loc) (k : string) (w : world) (d : gmap string pyval) :
  heap w !! batch = Some d -> d !! k = None -> getitem batch k w = (Raise (KeyError k), w).
Proof. intros Hd Hk. unfold getitem. by rewrite Hd, Hk. Qed.

(** Case analysis on the results threaded through a computation. *)
Ltac step_res :=
  match goal with
  | |- context [match ?r with Ok _ => _ | Raise _ => _ end] =>
      lazymatch r with
      | Ok _ => fail
      | Raise _ => fail
      | _ => destruct r eqn:?; simpl
      end
  end.

Section UpdateMetrics.

Context (host : Host).

Lemma update_metrics_paragraphs (preds : pyval) (batch : loc) (w : world) :
  update_metrics host preds batch w =
    (do h <- lift (Human_new host preds);
     do v <- getitem batch "attributes";
     do gt_attrs <- as_tensor v;
     do accs <- lift (accuracies h gt_attrs);
     record_accuracies accs ;;
     save_labels host h batch) w.
Proof.
  unfold update_metrics, accuracies, save_labels, save_label.
  rewrite !bind_lift. destruct (Human_new host preds) as [h|e]; [|done].
  destruct (getitem batch "attributes" w) as [[v|e] w1] eqn:Hv;
    [|by do 2 rewrite (bind_raise _ _ _ _ _ Hv)].
  do 2 rewrite (bind_ok _ _ _ _ _ Hv).
  destruct (as_tensor v w1) as [[gt|e] w2] eqn:Ht;
    [|by do 2 rewrite (bind_raise _ _ _ _ _ Ht)].
  do 2 rewrite (bind_ok _ _ _ _ _ Ht).
  repeat (rewrite ?bind_lift; unfold res_bind at 1;
          match goal with
          | |- context [match ?r with Ok _ => _ | Raise _ => _ end] =>
              destruct r; [|done]
          end).
  unfold record_accuracies.
  repeat (rewrite bind_assoc; apply bind_cong; intros [] ? _).
  done.
Qed.

(** *** The accuracy arrays on aligned shapes *)

Lemma promote_float32 (d : dtype) : Torch.promote d torch_float32 = torch_float32.
Proof. by destruct d. Qed.

Lemma rel_acc_fuse (pd gd : list F32.float) :
  map (fun x => Torch.round_to torch_float32 (F32.sub F32.one x))
    (map (Torch.round_to torch_float32)
       (zip_with F32.div
          (map F32.abs (map (Torch.round_to torch_float32) (zip_with F32.sub pd gd))) gd))
  = zip_with (fun x y => F32.sub F32.one (F32.div (F32.abs (F32.sub x y)) y)) pd gd.
Proof.
  revert gd; induction pd as [|x pd IH]; intros [|y gd]; simpl; [done..|].
  f_equal. apply IH.
Qed.

Lemma rel_acc_vectors (p g : tensor) (n : nat) :
  vector_on (t_device g) n p -> vector_on (t_device g) n g ->
  t_dtype g = torch_float32 ->
  rel_acc p g =
    Ok (accuracy_vector g n
          (zip_with (fun x y => F32.sub F32.one (F32.div (F32.abs (F32.sub x y)) y))
             (t_data p) (t_data g))).
Proof.
  intros (Hps & Hpw & Hpd) (Hgs & Hgw & _) Hdt.
  unfold rel_acc, Torch.sub. rewrite Hdt.
  rewrite (bool_decide_false (torch_float32 = torch_bool)) by done.
  rewrite andb_false_r.
  rewrite (binop_vectors _ _ p g n) by done. cbn [res_bind].
  rewrite Hdt, promote_float32.
  unfold Torch.div.
  rewrite (binop_vectors _ _ _ g n); cbn [t_shape t_data t_device t_dtype Torch.abs];
    [|done|done| |done|done].
  - cbn [res_bind]. rewrite Hdt. unfold Torch.rsub_one.
    cbn [t_shape t_data t_device t_dtype Torch.div_dtype Torch.promote Torch.rank_of
         Nat.ltb Nat.leb Torch.is_floating].
    rewrite (bool_decide_false (torch_float32 = torch_bool)) by done.
    unfold accuracy_vector. by rewrite rel_acc_fuse.
  - unfold t_wf, Torch.abs in *. cbn [t_shape t_data].
    rewrite !length_map, length_zip_with, Hpw, Hgw, Hps, Hgs. simpl. lia.
Qed.

Lemma match_acc_vectors (p g : tensor) (n : nat) :
  vector_on (t_device g) n p -> vector_on (t_device g) n g ->
  match_acc p g =
    Ok (accuracy_vector g n (zip_with Spec.exact_match (t_data p) (t_data g))).
Proof.
  intros (Hps & Hpw & Hpd) (Hgs & Hgw & _).
  unfold match_acc, Torch.eq.
  rewrite (binop_vectors _ _ p g n) by done. cbn [res_bind].
  unfold Torch.float, accuracy_vector. cbn [t_shape t_data t_device t_dtype].
  do 2 f_equal. cbn [Torch.round_to]. by rewrite map_id.
Qed.

Lemma clip01_accuracy_vector (g : tensor) (n : nat) (pd gd : list F32.float) :
  Torch.clip01
    (accuracy_vector g n
       (zip_with (fun x y => F32.sub F32.one (F32.div (F32.abs (F32.sub x y)) y)) pd gd))
  = accuracy_vector g n (zip_with Spec.relative_accuracy pd gd).
Proof.
  unfold Torch.clip01, accuracy_vector; cbn [t_shape t_data t_device t_dtype].
  f_equal. revert gd; induction pd as [|x pd IH]; intros [|y gd]; simpl; [done..|].
  f_equal. apply IH.
Qed.

Lemma gt_column_vector (gt : tensor) (n j : nat) :
  t_shape gt = [n; 5%nat] -> t_wf gt -> (j < 5)%nat ->
  Torch.select_col j gt =
    Ok {| t_device := t_device gt; t_dtype := t_dtype gt; t_shape := [n];
          t_data := gt_column gt n j |}.
Proof. intros. by apply select_col_matrix. Qed.

Lemma gt_column_length (gt : tensor) (n j : nat) : length (gt_column gt n j) = n.
Proof. unfold gt_column. by rewrite length_map, length_seq. Qed.


(** On aligned shapes the five arrays are the element-wise accuracies. *)
Lemma accuracies_aligned (h : Human.t) (gt : tensor) (n : nat) :
  aligned h gt n ->
  accuracies h gt =
    Ok (accuracy_vector gt n
          (zip_with Spec.relative_accuracy (t_data (Human.weight h)) (gt_column gt n 0)),
        accuracy_vector gt n
          (zip_with Spec.relative_accuracy (t_data (Human.height h)) (gt_column gt n 1)),
        accuracy_vector gt n
          (zip_with Spec.exact_match (t_data (Human.cls_gender h)) (gt_column gt n 2)),
        accuracy_vector gt n
          (zip_with Spec.relative_accuracy (t_data (Human.age h)) (gt_column gt n 3)),
        accuracy_vector gt n
          (zip_with Spec.exact_match (t_data (Human.cls_ethnicity h)) (gt_column gt n 4))).
Proof.
  intros [Hs Hwf Hdt Hw Hh Ha Hg He]. unfold accuracies.
  rewrite !(gt_column_vector gt n) by (done || lia). cbn [res_bind].
  assert (Hcol : forall j, vector_on (t_device gt) n
            {| t_device := t_device gt; t_dtype := t_dtype gt; t_shape := [n];
               t_data := gt_column gt n j |}).
  { intros j. repeat split. unfold t_wf; simpl. rewrite gt_column_length. lia. }
  rewrite !(rel_acc_vectors _ _ n) by (done || apply Hcol). cbn [res_bind].
  rewrite !(match_acc_vectors _ _ n) by (done || apply Hcol). cbn [res_bind].
  cbn [t_data]. by rewrite !clip01_accuracy_vector.
Qed.

(** *** Appending to the accumulator *)

Lemma set_metrics_twice (m m' : HumanMetrics_t) (w : world) :
  set_metrics m' (set_metrics m w) = set_metrics m' w.
Proof. done. Qed.

Lemma append_stat_some (k : string) (x : tensor) (w : world) (l : list tensor) :
  stat k w = Some l ->
  append_stat k x w =
    (Ok tt, set_metrics {| attrs_stats := <[k := l ++ [x]]> (attrs_stats (v_metrics (self w)));
                           speed := speed (v_metrics (self w));
                           confusion_matrix := confusion_matrix (v_metrics (self w)) |} w).
Proof. unfold stat, append_stat. by intros ->. Qed.

Lemma append_stat_none (k : string) (x : tensor) (w : world) :
  stat k w = None -> append_stat k x w = (Raise (KeyError k), w).
Proof. unfold stat, append_stat. by intros ->. Qed.

Lemma attr_names_cases (k : string) :
  k ∈ attr_names ->
  k = "weight"%string \/ k = "height"%string \/ k = "gender"%string
  \/ k = "age"%string \/ k = "ethnicity"%string.
Proof. unfold attr_names. rewrite !elem_of_cons, elem_of_nil. tauto. Qed.

Lemma balanced_keys (n : nat) (w : world) :
  balanced n w ->
  exists lw lh lg la le,
    stat "weight" w = Some lw /\ stat "height" w = Some lh /\ stat "gender" w = Some lg
    /\ stat "age" w = Some la /\ stat "ethnicity" w = Some le.
Proof.
  intros Hb.
  destruct (Hb "weight"%string) as (lw & Hw & _); [by repeat constructor|].
  destruct (Hb "height"%string) as (lh & Hh & _); [by repeat constructor|].
  destruct (Hb "gender"%string) as (lg & Hg & _); [by repeat constructor|].
  destruct (Hb "age"%string) as (la & Ha & _); [by repeat constructor|].
  destruct (Hb "ethnicity"%string) as (le & He & _); [by repeat constructor|].
  by exists lw, lh, lg, la, le.
Qed.

(** With the five lists in place, the second paragraph appends one array
    to each and changes nothing else. *)
Lemma record_accuracies_balanced (a : tensor * tensor * tensor * tensor * tensor)
    (n : nat) (w : world) :
  balanced n w ->
  exists m',
    record_accuracies a w = (Ok tt, set_metrics m' w)
    /\ speed m' = speed (v_metrics (self w))
    /\ confusion_matrix m' = confusion_matrix (v_metrics (self w))
    /\ (forall k, k ∉ attr_names -> attrs_stats m' !! k = stat k w)
    /\ (forall k l, k ∈ attr_names -> stat k w = Some l ->
         attrs_stats m' !! k = Some (l ++ [accuracy_of k a])).
Proof.
  intros Hb. destruct (balanced_keys n w Hb) as (lw & lh & lg & la & le & Hw & Hh & Hg & Ha & He).
  destruct a as [[[[aw ah] ag] aa] ae]. unfold record_accuracies.
  unfold stat in *.
  rewrite (bind_ok _ _ _ _ _ (append_stat_some _ _ _ lw Hw)).
  erewrite bind_ok; [|apply append_stat_some with (l := lh); unfold stat; by simplify_map_eq].
  erewrite bind_ok; [|apply append_stat_some with (l := lg); unfold stat; by simplify_map_eq].
  erewrite bind_ok; [|apply append_stat_some with (l := la); unfold stat; by simplify_map_eq].
  erewrite append_stat_some; [|unfold stat; by simplify_map_eq].
  rewrite !set_metrics_twice. eexists; split; [reflexivity|].
  cbn [attrs_stats speed confusion_matrix v_metrics self set_metrics].
  split; [done|]. split; [done|]. split.
  - intros k Hk. unfold attr_names in Hk.
    rewrite !not_elem_of_cons in Hk. destruct Hk as (? & ? & ? & ? & ? & _).
    by rewrite !lookup_insert_ne.
  - intros k l Hk Hl.
    apply attr_names_cases in Hk as [->|[->|[->|[->| ->]]]]; simplify_map_eq; done.
Qed.

(** *** Writing the label files *)

Lemma add_trace_nil (w : world) : add_trace [] w = w.
Proof. destruct w. unfold add_trace; simpl. by rewrite app_nil_r. Qed.

Lemma add_trace_app (evs1 evs2 : list effect) (w : world) :
  add_trace evs2 (add_trace evs1 w) = add_trace (evs1 ++ evs2) w.
Proof. unfold add_trace; simpl. by rewrite app_assoc. Qed.

Lemma save_one_txt_run (pred : pyval) (sc : bool) (shape : pyval) (file : path) (w : world) :
  (exists e, save_one_txt pred sc shape file w = (Raise e, w))
  \/ (exists h wd,
        save_one_txt pred sc shape file w
        = (Ok tt, add_trace [SaveTxt file pred sc h wd (v_names (self w))] w)).
Proof.
  unfold save_one_txt, index, as_dim. rewrite bind_lift.
  destruct (subscript shape 0) as [s0|e]; [|left; by exists e].
  rewrite bind_lift. destruct (subscript shape 1) as [s1|e]; [|left; by exists e].
  rewrite bind_lift. destruct (dim_of s0) as [h|e]; [|left; by exists e].
  rewrite bind_lift. destruct (dim_of s1) as [wd|e]; [|left; by exists e].
  right. by exists h, wd.
Qed.

Lemma save_label_run (batch : loc) (i : nat) (pred : pyval) (w : world) :
  (exists e, save_label host batch (i, pred) w = (Raise e, w))
  \/ (exists ev, label_written host w batch i pred ev
               /\ save_label host batch (i, pred) w = (Ok tt, add_trace [ev] w)).
Proof.
  unfold save_label, label_written. rewrite bind_gets.
  destruct (heap w !! batch) as [d|] eqn:Hd;
    [|left; eexists; apply bind_raise; unfold getitem; by rewrite Hd].
  destruct (d !! "im_file"%string) as [files|] eqn:Hf;
    [|left; eexists; apply bind_raise; unfold getitem; by rewrite Hd, Hf].
  rewrite (bind_ok _ _ _ _ _ (getitem_some _ _ _ _ _ Hd Hf)).
  unfold index. rewrite bind_lift.
  destruct (subscript files i) as [f|e] eqn:Hi; [|left; by eexists].
  destruct f as [| | |im_file| | | | |]; try (left; by eexists).
  rewrite bind_gets.
  destruct (d !! "ori_shape"%string) as [shape|] eqn:Hs;
    [|left; eexists; apply bind_raise; unfold getitem; by rewrite Hd, Hs].
  rewrite (bind_ok _ _ _ _ _ (getitem_some _ _ _ _ _ Hd Hs)).
  destruct (save_one_txt_run pred (save_conf (v_args (self w))) shape
              (label_file host (v_save_dir (self w)) im_file) w)
    as [[e He]|(h & wd & Hrun)].
  - left. by exists e.
  - right. eexists; split; [|exact Hrun].
    exists d, files, im_file, h, wd. repeat split; try done.
    unfold label_file, path_div. by rewrite <- app_assoc.
Qed.

Lemma save_loop (batch : loc) (l : list pyval) :
  forall (start : nat) (w : world),
  exists evs r,
    for_each (save_label host batch) (zip (seq start (length l)) l) w = (r, add_trace evs w)
    /\ (r = Ok tt -> length evs = length l)
    /\ (forall j ev, evs !! j = Some ev ->
          exists pred, l !! j = Some pred
                       /\ label_written host w batch (start + j) pred ev).
Proof.
  induction l as [|pred l IH]; intros start w.
  - exists [], (Ok tt). rewrite add_trace_nil. by repeat split.
  - cbn [length seq zip zip_with for_each].
    destruct (save_label_run batch start pred w) as [[e He]|(ev & Hev & Hrun)].
    + exists [], (Raise e). rewrite add_trace_nil, (bind_raise _ _ _ _ _ He).
      by repeat split.
    + rewrite (bind_ok _ _ _ _ _ Hrun).
      destruct (IH (S start) (add_trace [ev] w)) as (evs & r & Hloop & Hlen & Hevs).
      exists (ev :: evs), r. rewrite Hloop, add_trace_app. repeat split.
      * intros Hr. simpl. by rewrite Hlen.
      * intros [|j] ev' Hj; simpl in Hj.
        -- injection Hj as <-. exists pred. by rewrite Nat.add_0_r.
        -- destruct (Hevs j ev' Hj) as (p & Hp & Hw). exists p. split; [done|].
           by replace (start + S j)%nat with (S start + j)%nat by lia.
Qed.

(** *** The outcomes of a call *)

(** A call that gets past the first paragraph appends to all five lists
    and then writes label files. *)
Lemma update_metrics_recorded (preds : pyval) (batch : loc) (n : nat) (w : world)
    (h : Human.t) (d : gmap string pyval) (gt : tensor)
    (accs : tensor * tensor * tensor * tensor * tensor) :
  balanced n w ->
  Human_new host preds = Ok h ->
  heap w !! batch = Some d -> d !! "attributes"%string = Some (PyTensor gt) ->
  accuracies h gt = Ok accs ->
  exists r w', update_metrics host preds batch w = (r, w')
               /\ recorded host batch h accs w r w'.
Proof.
  intros Hb Hh Hd Hgt Hacc. rewrite update_metrics_paragraphs.
  rewrite bind_lift, Hh.
  rewrite (bind_ok _ _ _ _ _ (getitem_some _ _ _ _ _ Hd Hgt)).
  unfold as_tensor. rewrite bind_lift. cbn [tensor_of]. rewrite bind_lift, Hacc.
  destruct (record_accuracies_balanced accs n w Hb) as (m' & Hrec & Hsp & Hcm & Hfr & Happ).
  rewrite (bind_ok _ _ _ _ _ Hrec).
  unfold save_labels. rewrite bind_gets.
  cbn [set_metrics self v_args].
  destruct (save_txt (v_args (self w))) eqn:Hst.
  - destruct (save_loop batch (Human.items h) 0 (set_metrics m' w))
      as (evs & r & Hloop & Hlen & Hevs).
    exists r, (add_trace evs (set_metrics m' w)). split; [exact Hloop|].
    exists m', evs. do 5 (split; [done|]).
    split; [intros Hf; congruence|].
    split; [intros Hr _; by apply Hlen|]. exact Hevs.
  - exists (Ok tt), (set_metrics m' w). split; [done|].
    exists m', []. rewrite add_trace_nil. do 5 (split; [done|]).
    split; [done|]. split; [intros _ Hf; congruence|].
    intros j ev Hj. by rewrite lookup_nil in Hj.
Qed.

(** A call that fails in the first paragraph leaves the world as it was. *)
Lemma update_metrics_outcome (preds : pyval) (batch : loc) (n : nat) (w : world) :
  balanced n w ->
  (exists e, update_metrics host preds batch w = (Raise e, w))
  \/ (exists h d gt accs r w',
        Human_new host preds = Ok h
        /\ heap w !! batch = Some d /\ d !! "attributes"%string = Some (PyTensor gt)
        /\ accuracies h gt = Ok accs
        /\ update_metrics host preds batch w = (r, w')
        /\ recorded host batch h accs w r w').
Proof.
  intros Hb.
  destruct (Human_new host preds) as [h|e] eqn:Hh.
  2: { left. exists e. rewrite update_metrics_paragraphs, bind_lift. by rewrite Hh. }
  destruct (heap w !! batch) as [d|] eqn:Hd.
  2: { left. eexists. rewrite update_metrics_paragraphs, bind_lift, Hh.
       apply bind_raise. unfold getitem. by rewrite Hd. }
  destruct (d !! "attributes"%string) as [v|] eqn:Hv.
  2: { left. eexists. rewrite update_metrics_paragraphs, bind_lift, Hh.
       apply bind_raise. by apply getitem_missing with (d := d). }
  destruct (tensor_of v) as [gt|e] eqn:Hgt.
  2: { left. exists e. rewrite update_metrics_paragraphs, bind_lift, Hh.
       rewrite (bind_ok _ _ _ _ _ (getitem_some _ _ _ _ _ Hd Hv)).
       unfold as_tensor. by rewrite bind_lift, Hgt. }
  assert (v = PyTensor gt) as -> by (destruct v; simpl in Hgt; congruence).
  destruct (accuracies h gt) as [accs|e] eqn:Hacc.
  2: { left. exists e. rewrite update_metrics_paragraphs, bind_lift, Hh.
       rewrite (bind_ok _ _ _ _ _ (getitem_some _ _ _ _ _ Hd Hv)).
       unfold as_tensor. rewrite bind_lift. cbn [tensor_of]. by rewrite bind_lift, Hacc. }
  right. destruct (update_metrics_recorded preds batch n w h d gt accs) as (r & w' & Hrun & Hrec);
    try done.
  by exists h, d, gt, accs, r, w'.
Qed.

Lemma stat_after (m' : HumanMetrics_t) (evs : list effect) (w : world) (k : string) :
  stat k (add_trace evs (set_metrics m' w)) = attrs_stats m' !! k.
Proof. done. Qed.







(** *** Effects of a call, whatever the accumulator holds *)

Lemma set_metrics_id (w : world) : set_metrics (v_metrics (self w)) w = w.
Proof. by destruct w as [hp [] tr]. Qed.

Lemma getitem_pure (batch : loc) (k : string) (w : world) :
  exists r, getitem batch k w = (r, w).
Proof.
  unfold getitem. destruct (heap w !! batch) as [d|]; [|by eexists].
  destruct (d !! k); by eexists.
Qed.

Lemma append_stat_frame (k : string) (x : tensor) (w : world) :
  exists r m', append_stat k x w = (r, set_metrics m' w).
Proof.
  destruct (stat k w) as [l|] eqn:Hk.
  - rewrite (append_stat_some _ _ _ _ Hk). by eexists _, _.
  - rewrite (append_stat_none _ _ _ Hk). exists (Raise (KeyError k)), (v_metrics (self w)).
    by rewrite set_metrics_id.
Qed.

Lemma record_accuracies_frame (a : tensor * tensor * tensor * tensor * tensor) (w : world) :
  exists r m', record_accuracies a w = (r, set_metrics m' w).
Proof.
  destruct a as [[[[aw ah] ag] aa] ae]. unfold record_accuracies.
  destruct (append_stat_frame "weight" aw w) as ([[]|e] & m1 & H1);
    [rewrite (bind_ok _ _ _ _ _ H1)|rewrite (bind_raise _ _ _ _ _ H1); by eexists _, _].
  destruct (append_stat_frame "height" ah (set_metrics m1 w)) as ([[]|e] & m2 & H2);
    rewrite set_metrics_twice in H2;
    [rewrite (bind_ok _ _ _ _ _ H2)|rewrite (bind_raise _ _ _ _ _ H2); by eexists _, _].
  destruct (append_stat_frame "gender" ag (set_metrics m2 w)) as ([[]|e] & m3 & H3);
    rewrite set_metrics_twice in H3;
    [rewrite (bind_ok _ _ _ _ _ H3)|rewrite (bind_raise _ _ _ _ _ H3); by eexists _, _].
  destruct (append_stat_frame "age" aa (set_metrics m3 w)) as ([[]|e] & m4 & H4);
    rewrite set_metrics_twice in H4;
    [rewrite (bind_ok _ _ _ _ _ H4)|rewrite (bind_raise _ _ _ _ _ H4); by eexists _, _].
  destruct (append_stat_frame "ethnicity" ae (set_metrics m4 w)) as (r & m5 & H5).
  rewrite set_metrics_twice in H5. by eexists _, _.
Qed.

(** A call changes the accumulator and adds label-file effects, nothing
    else; without [save_txt] it adds no effect, and when it returns with
    [save_txt] set there is one label file per prediction. *)
Lemma update_metrics_effects (preds : pyval) (batch : loc) (w : world)
    (r : res unit) (w' : world) :
  update_metrics host preds batch w = (r, w') ->
  exists m' evs,
    w' = add_trace evs (set_metrics m' w)
    /\ (save_txt (v_args (self w)) = false -> evs = [])
    /\ (r = Ok tt -> save_txt (v_args (self w)) = true ->
          exists h, Human_new host preds = Ok h
                    /\ length evs = length (Human.items h)
                    /\ forall j ev, evs !! j = Some ev ->
                          exists pred, Human.items h !! j = Some pred
                                       /\ label_written host w batch j pred ev).
Proof.
  assert (Hearly : forall e, (Raise e, w) = (r, w') ->
    exists m' evs, w' = add_trace evs (set_metrics m' w)
      /\ (save_txt (v_args (self w)) = false -> evs = [])
      /\ (r = Ok tt -> save_txt (v_args (self w)) = true ->
            exists h, Human_new host preds = Ok h
                      /\ length evs = length (Human.items h)
                      /\ forall j ev, evs !! j = Some ev ->
                            exists pred, Human.items h !! j = Some pred
                                         /\ label_written host w batch j pred ev)).
  { intros e [= <- <-]. exists (v_metrics (self w)), [].
    rewrite set_metrics_id, add_trace_nil. by repeat split. }
  rewrite update_metrics_paragraphs, bind_lift.
  destruct (Human_new host preds) as [h|e] eqn:Hh; [|apply Hearly].
  destruct (getitem_pure batch "attributes" w) as ([v|e] & Hv);
    [rewrite (bind_ok _ _ _ _ _ Hv)|rewrite (bind_raise _ _ _ _ _ Hv); apply Hearly].
  unfold as_tensor. rewrite bind_lift.
  destruct (tensor_of v) as [gt|e]; [|apply Hearly].
  rewrite bind_lift. destruct (accuracies h gt) as [accs|e]; [|apply Hearly].
  destruct (record_accuracies_frame accs w) as ([[]|e] & m' & Hrec).
  2: { rewrite (bind_raise _ _ _ _ _ Hrec). intros [= <- <-].
       exists m', []. rewrite add_trace_nil. by repeat split. }
  rewrite (bind_ok _ _ _ _ _ Hrec). unfold save_labels. rewrite bind_gets.
  cbn [set_metrics self v_args].
  destruct (save_txt (v_args (self w))) eqn:Hst.
  - destruct (save_loop batch (Human.items h) 0 (set_metrics m' w))
      as (evs & r0 & Hloop & Hlen & Hevs).
    unfold enumerate. rewrite Hloop. intros [= <- <-].
    exists m', evs. split; [done|]. split; [done|].
    intros Hr _. exists h. split; [done|]. split; [by apply Hlen|]. exact Hevs.
  - intros [= <- <-]. exists m', []. rewrite add_trace_nil. by repeat split.
Qed.

(** *** A call on a well-formed batch returns *)





(** *** The accumulator over a run *)

Lemma recorded_balanced (batch : loc) (h : Human.t)
    (accs : tensor * tensor * tensor * tensor * tensor) (n : nat)
    (w : world) (r : res unit) (w' : world) :
  balanced n w -> recorded host batch h accs w r w' ->
  balanced (S n) w'
  /\ forall k, k ∈ attr_names ->
       exists l, stat k w = Some l /\ stat k w' = Some (l ++ [accuracy_of k accs]).
Proof.
  intros Hb (m' & evs & -> & _ & _ & _ & Happ & _). split.
  - intros k Hk. destruct (Hb k Hk) as (l & Hl & Hlen).
    exists (l ++ [accuracy_of k accs]). rewrite stat_after. split; [by apply Happ|].
    rewrite length_app. simpl. lia.
  - intros k Hk. destruct (Hb k Hk) as (l & Hl & _).
    exists l. rewrite stat_after. split; [done|by apply Happ].
Qed.

(** C6. Every call of [update_metrics] that returns appends exactly one
    array to each of the five per-attribute lists.  Over a run of calls the
    five lists grow by the same number [m] of arrays, at most one per call,
    and by exactly one per call when all calls returned: after [k]
    successful calls on a fresh accumulator all five lists have length [k]. *)
Theorem update_metrics_one_entry_per_batch (batches : list (pyval * loc)) (n : nat)
    (w : world) (r : res unit) (w' : world) :
  balanced n w ->
  update_all host batches w = (r, w') ->
  exists m,
    (m <= length batches)%nat
    /\ (r = Ok tt -> m = length batches)
    /\ balanced (n + m) w'
    /\ forall k, k ∈ attr_names ->
         exists l xs, stat k w = Some l /\ stat k w' = Some (l ++ xs) /\ length xs = m.
Proof.
  revert n w. induction batches as [|[preds batch] batches IH]; intros n w Hb Hrun.
  - injection Hrun as <- <-. exists 0%nat. rewrite Nat.add_0_r.
    repeat split; try done.
    intros k Hk. destruct (Hb k Hk) as (l & Hl & _). exists l, []. by rewrite app_nil_r.
  - unfold update_all in Hrun. cbn [for_each] in Hrun.
    destruct (update_metrics_outcome preds batch n w Hb)
      as [[e He]|(h & d & gt & accs & r1 & w1 & _ & _ & _ & _ & Hcall & Hrec)].
    + rewrite (bind_raise _ _ _ _ _ He) in Hrun. injection Hrun as <- <-.
      exists 0%nat. rewrite Nat.add_0_r. split; [simpl; lia|]. repeat split; try done.
      intros k Hk. destruct (Hb k Hk) as (l & Hl & _). exists l, []. by rewrite app_nil_r.
    + destruct (recorded_balanced batch h accs n w r1 w1 Hb Hrec) as [Hb1 Hone].
      destruct r1 as [[]|e].
      * rewrite (bind_ok _ _ _ _ _ Hcall) in Hrun.
        destruct (IH (S n) w1 Hb1 Hrun) as (m & Hle & Hok & Hbm & Hall).
        exists (S m). split; [simpl; lia|]. split; [intros Hr; simpl; by rewrite Hok|].
        split; [by replace (n + S m)%nat with (S n + m)%nat by lia|].
        intros k Hk. destruct (Hone k Hk) as (l & Hl & Hl1).
        destruct (Hall k Hk) as (l1 & xs & Hl1' & Hl' & Hxs).
        exists l, (accuracy_of k accs :: xs). split; [done|].
        split; [|simpl; by rewrite Hxs].
        rewrite Hl1 in Hl1'. injection Hl1' as <-. by rewrite <- app_assoc in Hl'.
      * rewrite (bind_raise _ _ _ _ _ Hcall) in Hrun. injection Hrun as <- <-.
        exists 1%nat. split; [simpl; lia|]. split; [done|].
        split; [by rewrite Nat.add_1_r|].
        intros k Hk. destruct (Hone k Hk) as (l & Hl & Hl1). by exists l, [accuracy_of k accs].
Qed.

(** *** Errors *)






(** With [save_txt] set, a batch without image paths makes the third
    paragraph raise, after the five arrays were appended. *)
Lemma update_metrics_missing_im_file (preds : pyval) (batch : loc) (m n : nat) (w : world)
    (h : Human.t) (d : gmap string pyval) (gt : tensor) :
  balanced m w ->
  Human_new host preds = Ok h ->
  heap w !! batch = Some d -> d !! "attributes"%string = Some (PyTensor gt) ->
  aligned h gt n ->
  save_txt (v_args (self w)) = true -> Human.items h <> [] ->
  d !! "im_file"%string = None ->
  exists w',
    update_metrics host preds batch w = (Raise (KeyError "im_file"), w')
    /\ forall k, k ∈ attr_names ->
         exists l x, stat k w = Some l /\ stat k w' = Some (l ++ [x]).
Proof.
  intros Hb Hh Hd Hgt Hal Hst Hitems Hnone.
  destruct (accuracies h gt) as [accs|e] eqn:Hacc;
    [|by rewrite (accuracies_aligned h gt n Hal) in Hacc].
  destruct (record_accuracies_balanced accs m w Hb) as (m' & Hrec & _ & _ & _ & Happ).
  exists (set_metrics m' w). split.
  - rewrite update_metrics_paragraphs, bind_lift, Hh.
    rewrite (bind_ok _ _ _ _ _ (getitem_some _ _ _ _ _ Hd Hgt)).
    unfold as_tensor. rewrite bind_lift. cbn [tensor_of]. rewrite bind_lift, Hacc.
    rewrite (bind_ok _ _ _ _ _ Hrec). unfold save_labels. rewrite bind_gets.
    cbn [set_metrics self v_args]. rewrite Hst.
    destruct (Human.items h) as [|pred items]; [done|].
    unfold enumerate. cbn [length seq zip zip_with for_each].
    apply bind_raise. unfold save_label. rewrite bind_gets.
    apply bind_raise. by apply getitem_missing with (d := d).
  - intros k Hk. destruct (Hb k Hk) as (l & Hl & _).
    exists l. eexists. split; [done|]. by apply Happ.
Qed.


End UpdateMetrics.

(** ** Frame rules *)

Section Frames.

Context (R : relation world) `{!Reflexive R} `{!Transitive R}.

Lemma preserves_ret {A} (a : A) : preserves R (ret a).
Proof. intros w r w' [= <- <-]. reflexivity. Qed.

Lemma preserves_raise {A} (e : pyerr) : preserves R (raise e : M A).
Proof. intros w r w' [= <- <-]. reflexivity. Qed.

Lemma preserves_lift {A} (x : res A) : preserves R (lift x).
Proof. intros w r w' [= <- <-]. reflexivity. Qed.

Lemma preserves_gets {A} (f : world -> A) : preserves R (gets f).
Proof. intros w r w' [= <- <-]. reflexivity. Qed.

Lemma preserves_getitem (batch : loc) (k : string) : preserves R (getitem batch k).
Proof.
  intros w r w' Hrun. destruct (getitem_pure batch k w) as (r0 & Hr0).
  rewrite Hr0 in Hrun. injection Hrun as <- <-. reflexivity.
Qed.

Lemma preserves_modify (f : world -> world) :
  (forall w, R w (f w)) -> preserves R (modify f).
Proof. intros Hf w r w' [= <- <-]. apply Hf. Qed.

Lemma preserves_bind {A B} (m : M A) (k : A -> M B) :
  preserves R m -> (forall a, preserves R (k a)) -> preserves R (bind m k).
Proof.
  intros Hm Hk w r w' Hrun. unfold bind in Hrun.
  destruct (m w) as [[a|e] w1] eqn:Hmw.
  - transitivity w1; [by eapply Hm|by eapply Hk].
  - injection Hrun as <- <-. by eapply Hm.
Qed.

Lemma preserves_for_each {A} (f : A -> M unit) (l : list A) :
  (forall x, preserves R (f x)) -> preserves R (for_each f l).
Proof.
  intros Hf. induction l as [|x l IH]; simpl.
  - apply preserves_ret.
  - apply preserves_bind; [apply Hf|by intros _].
Qed.

Lemma preserves_len (v : pyval) : preserves R (len v).
Proof. apply preserves_lift. Qed.

End Frames.

#[export] Instance same_task_refl : Reflexive same_task.
Proof. by intros w. Qed.

#[export] Instance same_task_trans : Transitive same_task.
Proof. unfold same_task. intros w1 w2 w3 H12 H23. congruence. Qed.

#[export] Instance same_but_refl (batch : loc) (keys : list string) :
  Reflexive (same_but batch keys).
Proof. intros w. repeat split; try done. intros d Hd. by exists d. Qed.

#[export] Instance same_but_trans (batch : loc) (keys : list string) :
  Transitive (same_but batch keys).
Proof.
  intros w1 w2 w3 (Hs12 & Ht12 & Ho12 & Hb12) (Hs23 & Ht23 & Ho23 & Hb23).
  split; [congruence|]. split; [congruence|]. split.
  - intros b Hb. rewrite Ho23, Ho12; done.
  - intros d Hd. destruct (Hb12 d Hd) as (d2 & Hd2 & Hk2).
    destruct (Hb23 d2 Hd2) as (d3 & Hd3 & Hk3).
    exists d3. split; [done|]. intros k Hk. rewrite Hk3, Hk2; done.
Qed.

(** Tactic for frame goals: follows the structure of the computation. *)
Ltac frame :=
  unfold as_tensor, index, as_dim;
  repeat first
    [ solve [apply preserves_ret; typeclasses eauto]
    | solve [apply preserves_raise; typeclasses eauto]
    | solve [apply preserves_lift; typeclasses eauto]
    | solve [apply preserves_gets; typeclasses eauto]
    | solve [apply preserves_getitem; typeclasses eauto]
    | solve [apply preserves_len; typeclasses eauto]
    | apply preserves_bind; [typeclasses eauto| |intros ?] ].

(** ** [preprocess] *)

Lemma setitem_some (batch : loc) (k : string) (v : pyval) (w : world)
    (d : gmap string pyval) :
  heap w !! batch = Some d ->
  setitem batch k v w = (Ok tt, set_heap (<[batch := <[k := v]> d]> (heap w)) w).
Proof. intros Hd. unfold setitem. by rewrite Hd. Qed.

Lemma preserves_setitem (batch : loc) (keys : list string) (k : string) (v : pyval) :
  k ∈ keys -> preserves (same_but batch keys) (setitem batch k v).
Proof.
  intros Hk w r w' Hrun. unfold setitem in Hrun.
  destruct (heap w !! batch) as [d|] eqn:Hd; injection Hrun as <- <-; [|reflexivity].
  split; [done|]. split; [done|]. split.
  - intros b Hb. simpl. by rewrite lookup_insert_ne.
  - intros d0 Hd0. simpl. rewrite lookup_insert_eq. eexists; split; [done|].
    intros k' Hk'. rewrite lookup_insert_ne; [congruence|]. intros ->. done.
Qed.

Lemma preprocess_preserves (batch : loc) :
  preserves (same_but batch ["img"; "attributes"]%string) (preprocess batch).
Proof.
  unfold preprocess. frame.
  all: apply preserves_setitem; by repeat constructor.
Qed.

Lemma preprocess_ok (batch : loc) (w : world) (d : gmap string pyval) (img a : tensor) :
  heap w !! batch = Some d ->
  d !! "img"%string = Some (PyTensor img) ->
  d !! "attributes"%string = Some (PyTensor a) ->
  let dev := v_device (self w) in
  let img' := if half (v_args (self w)) then Torch.half (Torch.to dev img)
              else Torch.float (Torch.to dev img) in
  preprocess batch w =
    (Ok batch,
     set_heap (<[batch := <["attributes"%string := PyTensor (Torch.float (Torch.to dev a))]>
                             (<["img"%string := PyTensor img']> d)]> (heap w)) w).
Proof.
  intros Hd Hi Ha dev img'. unfold preprocess. rewrite bind_gets.
  rewrite (bind_ok _ _ _ _ _ (getitem_some _ _ _ _ _ Hd Hi)).
  unfold as_tensor. rewrite bind_lift. cbn [tensor_of].
  rewrite (bind_ok _ _ _ _ _ (setitem_some _ _ _ _ _ Hd)).
  rewrite bind_gets. cbn [set_heap self heap].
  erewrite bind_ok; [|apply getitem_some with (d := <["img"%string := PyTensor (Torch.to dev img)]> d);
                      [apply lookup_insert_eq|apply lookup_insert_eq]].
  rewrite bind_lift. cbn [tensor_of].
  erewrite bind_ok; [|apply setitem_some; apply lookup_insert_eq].
  cbn [set_heap self heap trace].
  erewrite bind_ok; [|eapply getitem_some; [apply lookup_insert_eq|]].
  2: { rewrite lookup_insert_ne by done. rewrite lookup_insert_ne by done. exact Ha. }
  rewrite bind_lift. cbn [tensor_of].
  erewrite bind_ok; [|apply setitem_some; apply lookup_insert_eq].
  unfold ret, set_heap; cbn [self heap trace]. f_equal. f_equal.
  rewrite !insert_insert_eq. reflexivity.
Qed.

Lemma returns_bind {A B} (P : B -> Prop) (m : M A) (k : A -> M B) :
  (forall a w a' w', k a w = (Ok a', w') -> P a') ->
  forall w a' w', bind m k w = (Ok a', w') -> P a'.
Proof.
  intros Hk w a' w' Hrun. unfold bind in Hrun.
  destruct (m w) as [[a|e] w1]; [by eapply Hk|done].
Qed.

Lemma preprocess_returns_batch (batch : loc) (w : world) (b : loc) (w' : world) :
  preprocess batch w = (Ok b, w') -> b = batch.
Proof.
  revert w b w'. unfold preprocess.
  repeat (apply returns_bind; intros ?).
  by intros w b w' [= <- _].
Qed.

(** C5. [preprocess] changes only the values stored in the batch under the
    keys ["img"] and ["attributes"]: the value under every other key, every
    other dictionary, the validator and the effects are left as they were,
    also when the call raises.  When the call returns it returns the batch
    object it was given.  On a batch that holds tensors under both keys it
    does return, with the image moved to the device and cast to half
    precision if [args.half] is set and to float otherwise, and with the
    attributes moved to the device and cast to float. *)
Theorem preprocess_touches_only_img_and_attributes (batch : loc) (w : world)
    (r : res loc) (w' : world) :
  preprocess batch w = (r, w') ->
  same_but batch ["img"; "attributes"]%string w w'
  /\ (forall b, r = Ok b -> b = batch)
  /\ (forall d img a,
        heap w !! batch = Some d ->
        d !! "img"%string = Some (PyTensor img) ->
        d !! "attributes"%string = Some (PyTensor a) ->
        r = Ok batch
        /\ exists d',
             heap w' !! batch = Some d'
             /\ d' !! "img"%string =
                  Some (PyTensor (if half (v_args (self w))
                                  then Torch.half (Torch.to (v_device (self w)) img)
                                  else Torch.float (Torch.to (v_device (self w)) img)))
             /\ d' !! "attributes"%string =
                  Some (PyTensor (Torch.float (Torch.to (v_device (self w)) a)))).
Proof.
  intros Hrun. split; [by eapply preprocess_preserves|]. split.
  - intros b ->. by eapply preprocess_returns_batch.
  - intros d img a Hd Hi Ha.
    rewrite (preprocess_ok batch w d img a Hd Hi Ha) in Hrun. injection Hrun as <- <-.
    split; [done|]. eexists. cbn [set_heap heap]. split; [apply lookup_insert_eq|].
    split; [|apply lookup_insert_eq].
    rewrite lookup_insert_ne by done. apply lookup_insert_eq.
Qed.

(** After [preprocess] the ground truth is a float32 tensor, as the
    alignment of shapes in [update_metrics] assumes. *)
Lemma preprocess_attributes_float32 (batch : loc) (w : world) (d : gmap string pyval)
    (img a : tensor) :
  heap w !! batch = Some d ->
  d !! "img"%string = Some (PyTensor img) ->
  d !! "attributes"%string = Some (PyTensor a) ->
  exists d' a',
    heap (preprocess batch w).2 !! batch = Some d'
    /\ d' !! "attributes"%string = Some (PyTensor a')
    /\ t_dtype a' = torch_float32 /\ t_device a' = v_device (self w)
    /\ t_shape a' = t_shape a /\ t_data a' = t_data a.
Proof.
  intros Hd Hi Ha. rewrite (preprocess_ok batch w d img a Hd Hi Ha).
  eexists _, _. cbn [snd set_heap heap]. split; [apply lookup_insert_eq|].
  split; [apply lookup_insert_eq|]. done.
Qed.

(** ** [postprocess] *)

(** [postprocess] is a pure selection: it leaves the world as it is,
    returns the first element of a non-empty tuple or list, and returns
    every other value unchanged. *)
Lemma postprocess_pure (preds : pyval) (w : world) :
  exists r, postprocess preds w = (r, w).
Proof.
  destruct preds as [| | | | |l|l| |]; try (by eexists); destruct l; by eexists.
Qed.

(** C9, as amended. [postprocess] is a pure selection: it leaves the world
    as it is; from a tuple or list with at least one element it returns the
    first element; on an empty tuple or list the indexing raises
    [IndexError]; every other input is returned unchanged. *)
Theorem postprocess_selects (preds : pyval) (w : world) :
  postprocess preds w =
    (match preds with
     | PyTuple (x :: _) | PyList (x :: _) => Ok x
     | PyTuple [] | PyList [] => Raise IndexError
     | _ => Ok preds
     end, w).
Proof. destruct preds as [| | | | |l|l| |]; try done; by destruct l. Qed.

(** ** [__init__] and the task *)

Section Task.

Context (host : Host).

Lemma preserves_emit (e : effect) : preserves same_task (emit e).
Proof. by apply preserves_modify. Qed.

Lemma preserves_append_stat (k : string) (x : tensor) :
  preserves same_task (append_stat k x).
Proof.
  intros w r w' Hrun. destruct (append_stat_frame k x w) as (r0 & m' & Hr0).
  rewrite Hr0 in Hrun. by injection Hrun as <- <-.
Qed.

Lemma preserves_setitem_task (batch : loc) (k : string) (v : pyval) :
  preserves same_task (setitem batch k v).
Proof.
  intros w r w' Hrun. unfold setitem in Hrun.
  destruct (heap w !! batch); by injection Hrun as <- <-.
Qed.

Ltac frame_task :=
  repeat first
    [ progress frame
    | solve [apply preserves_emit]
    | solve [apply preserves_append_stat]
    | solve [apply preserves_setitem_task]
    | solve [apply preserves_modify; intros ?; reflexivity]
    | apply preserves_for_each; [typeclasses eauto..|intros [? ?]]
    | match goal with
      | |- preserves _ (match ?x with _ => _ end) => destruct x
      end ].

Lemma call_preserves_task (h : hook) : preserves same_task (call host h).
Proof.
  destruct h; unfold call, build_dataset, preprocess, postprocess, update_metrics,
    save_one_txt, get_dataloader, build_dataset, finalize_metrics, get_stats,
    print_results, plot_val_samples, plot_predictions; frame_task.
Qed.

(** C10. After construction of a [HumanValidator], [args.task] is
    ["human"] whatever the base constructor made of the caller's arguments,
    and [metrics] is a fresh [HumanMetrics] accumulator; no hook of the class
    changes [args.task] afterwards, in any world the validator can reach. *)
Theorem HumanValidator_task_is_human (dataloader save_dir pbar args _callbacks : pyval)
    (v : validator) :
  HumanValidator_init host dataloader save_dir pbar args _callbacks = Ok v ->
  task (v_args v) = "human"%string
  /\ v_metrics v = HumanMetrics
  /\ forall w, reachable host v w -> task (v_args (self w)) = "human"%string.
Proof.
  intros Hinit. unfold HumanValidator_init in Hinit.
  destruct (BaseValidator_init host dataloader save_dir pbar args _callbacks) as [v0|e];
    [|done].
  injection Hinit as <-. split; [done|]. split; [done|].
  intros w Hw. induction Hw as [w Hv|w w' _ IH Hs|w h r w' _ IH Hcall].
  - by rewrite Hv.
  - by rewrite Hs.
  - rewrite <- IH. by eapply call_preserves_task.
Qed.

End Task.

(** ** [plot_predictions] *)

Section PlotPredictions.













End PlotPredictions.


(** ** [plot_predictions], continued *)


(** ** The concrete batch *)

Lemma fresh_balanced (w : world) : v_metrics (self w) = HumanMetrics -> balanced 0 w.
Proof.
  intros Hm k Hk. exists []. unfold stat. rewrite Hm. split; [|done].
  apply attr_names_cases in Hk as [->|[->|[->|[->| ->]]]]; by vm_compute.
Qed.

Lemma example_wrapped :
  Human_new Example.host (PyTensor Example.preds) = Ok Example.wrapped.
Proof. by vm_compute. Qed.

Lemma example_heap : heap Example.start !! Example.batch = Some Example.fields.
Proof. apply lookup_singleton_eq. Qed.

Lemma example_attributes :
  Example.fields !! "attributes"%string = Some (PyTensor Example.attributes).
Proof. by vm_compute. Qed.

Lemma example_img : Example.fields !! "img"%string = Some (PyTensor Example.img).
Proof. by vm_compute. Qed.

Lemma example_aligned : aligned Example.wrapped Example.attributes 2.
Proof. split; by vm_compute. Qed.

Lemma example_labels_ready : labels_ready Example.wrapped Example.batch Example.start.
Proof.
  exists Example.fields, (PyList [PyStr "data/val/a.jpg"; PyStr "data/val/b.tar.gz"]),
    (PyTuple [PyInt 480; PyInt 640]), (PyInt 480), (PyInt 640), 480, 640.
  split; [apply example_heap|]. split; [by vm_compute|]. split.
  - intros i Hi. change (length (Human.items Example.wrapped)) with 2%nat in Hi.
    destruct i as [|[|i]]; [by eexists|by eexists|lia].
  - repeat split; by vm_compute.
Qed.

(** ** The theorems at the concrete batch *)



(** C3 at a failing input: for a sample whose ground-truth age is zero and
    whose predicted age is zero, the age accuracy that [update_metrics]
    appends is NaN, which is not in the unit interval. *)
Lemma update_metrics_zero_age_not_in_unit :
  exists acc,
    entry 11 Example.zero_preds 0 2 = Some F32.zero
    /\ entry 5 Example.zero_attributes 0 3 = Some F32.zero
    /\ update_metrics Example.host (PyTensor Example.zero_preds) Example.batch
         Example.zero_start
       = (Ok tt,
          (update_metrics Example.host (PyTensor Example.zero_preds) Example.batch
             Example.zero_start).2)
    /\ stat "age"
         (update_metrics Example.host (PyTensor Example.zero_preds) Example.batch
            Example.zero_start).2 = Some [acc]
    /\ t_data acc = [F32.nan]
    /\ F32.in_unit F32.nan = false.
Proof.
  exists {| t_device := CUDA 0; t_dtype := torch_float32; t_shape := [1%nat];
            t_data := [F32.nan] |}.
  split; [vm_compute; reflexivity|].
  split; [vm_compute; reflexivity|].
  split; [vm_compute; reflexivity|].
  split; [vm_compute; reflexivity|].
  split; reflexivity.
Qed.



(** C5 at the example: the image goes to the device in half precision,
    the attributes in float. *)
Lemma preprocess_example :
  same_but Example.batch ["img"; "attributes"]%string Example.start
    (preprocess Example.batch Example.start).2
  /\ (forall b, Ok Example.batch = Ok b -> b = Example.batch)
  /\ (forall d img a,
        heap Example.start !! Example.batch = Some d ->
        d !! "img"%string = Some (PyTensor img) ->
        d !! "attributes"%string = Some (PyTensor a) ->
        Ok Example.batch = Ok Example.batch
        /\ exists d',
             heap (preprocess Example.batch Example.start).2 !! Example.batch = Some d'
             /\ d' !! "img"%string =
                  Some (PyTensor (if half (v_args (self Example.start))
                                  then Torch.half (Torch.to (v_device (self Example.start)) img)
                                  else Torch.float (Torch.to (v_device (self Example.start)) img)))
             /\ d' !! "attributes"%string =
                  Some (PyTensor (Torch.float (Torch.to (v_device (self Example.start)) a)))).
Proof.
  apply (preprocess_touches_only_img_and_attributes Example.batch Example.start
           (Ok Example.batch) (preprocess Example.batch Example.start).2).
  by vm_compute.
Defined.

(** C6 at the example: two batches on the fresh accumulator. *)
Lemma update_metrics_one_entry_per_batch_example :
  exists m,
    (m <= 2)%nat
    /\ (Ok tt = Ok tt -> m = 2%nat)
    /\ balanced (0 + m)
         (update_all Example.host
            [(PyTensor Example.preds, Example.batch); (PyTensor Example.preds, Example.batch)]
            Example.start).2
    /\ forall k, k ∈ attr_names ->
         exists l xs,
           stat k Example.start = Some l
           /\ stat k
                (update_all Example.host
                   [(PyTensor Example.preds, Example.batch);
                    (PyTensor Example.preds, Example.batch)]
                   Example.start).2 = Some (l ++ xs)
           /\ length xs = m.
Proof.
  apply (update_metrics_one_entry_per_batch Example.host
           [(PyTensor Example.preds, Example.batch); (PyTensor Example.preds, Example.batch)]
           0 Example.start (Ok tt)).
  - by apply fresh_balanced.
  - by vm_compute.
Defined.



(** C9 as stated fails: the empty tuple is a tuple, and [postprocess]
    raises on it instead of returning a first element. *)
Lemma postprocess_empty_tuple_raises :
  postprocess (PyTuple []) Example.start = (Raise IndexError, Example.start).
Proof. done. Qed.

(** C10 at the example: the base constructor leaves the task ["detect"]
    and an accumulator without lists. *)
Lemma HumanValidator_task_is_human_example :
  task (v_args Example.base_validator) = "detect"%string
  /\ task (v_args Example.human) = "human"%string
  /\ v_metrics Example.human = HumanMetrics
  /\ forall w, reachable Example.host Example.human w ->
       task (v_args (self w)) = "human"%string.
Proof.
  split; [done|].
  apply (HumanValidator_task_is_human Example.host PyNone PyNone PyNone PyNone PyNone
           Example.human).
  by vm_compute.
Defined.

(** Shapes that the tensor operations can combine are no error: a single
    prediction is broadcast against the two ground truths of the example
    batch, and the call returns with arrays of two accuracies. *)
Lemma update_metrics_single_prediction_broadcasts :
  exists acc,
    t_shape Example.zero_preds = [1; 11]%nat
    /\ t_shape Example.attributes = [2; 5]%nat
    /\ (update_metrics Example.host (PyTensor Example.zero_preds) Example.batch
          Example.start).1 = Ok tt
    /\ stat "weight"
         (update_metrics Example.host (PyTensor Example.zero_preds) Example.batch
            Example.start).2 = Some [acc]
    /\ t_shape acc = [2%nat].
Proof.
  exists {| t_device := CUDA 0; t_dtype := torch_float32; t_shape := [2%nat];
            t_data := [F32.one; S754_finite false 14680064 (-24)] |}.
  split; [reflexivity|]. split; [reflexivity|].
  split; [vm_compute; reflexivity|].
  split; [vm_compute; reflexivity|]. reflexivity.
Qed.

(** * Further properties of the hooks *)

(** ** Strings *)

Lemma string_length_app (s1 s2 : string) :
  String.length (s1 +:+ s2) = (String.length s1 + String.length s2)%nat.
Proof. induction s1 as [|c s1 IH]; simpl; [done|by rewrite IH]. Qed.

Lemma spaces_length (k : nat) :
  String.length (String.concat EmptyString (replicate k " "%string)) = k.
Proof.
  induction k as [|k IH]; [done|].
  destruct k as [|k]; [done|].
  change (String.concat EmptyString (replicate (S (S k)) " "%string))
    with (" " +:+ EmptyString +:+ String.concat EmptyString (replicate (S k) " "%string)).
  by rewrite !string_length_app, IH.
Qed.

Lemma rjust_length (n : nat) (s : string) :
  String.length (rjust n s) = Nat.max n (String.length s).
Proof. unfold rjust. rewrite string_length_app, spaces_length. lia. Qed.

Lemma concat_fields_length (l : list string) (k : nat) :
  Forall (fun s => String.length s = k) l ->
  String.length (String.concat EmptyString l) = (k * length l)%nat.
Proof.
  induction 1 as [|s l Hs Hl IH]; [simpl; lia|].
  destruct l as [|s' l]; [simpl in *; lia|].
  change (String.concat EmptyString (s :: s' :: l))
    with (s +:+ EmptyString +:+ String.concat EmptyString (s' :: l)).
  rewrite !string_length_app, IH. cbn [length String.length]. lia.
Qed.

Lemma string_to_list_app (s1 s2 : string) :
  String.list_ascii_of_string (s1 +:+ s2)
  = String.list_ascii_of_string s1 ++ String.list_ascii_of_string s2.
Proof. induction s1 as [|c s1 IH]; simpl; [done|by rewrite IH]. Qed.

Lemma string_app_inj_r (s1 s2 t : string) : s1 +:+ t = s2 +:+ t -> s1 = s2.
Proof.
  intros H. apply (f_equal String.list_ascii_of_string) in H.
  rewrite !string_to_list_app in H. apply app_inv_tail in H.
  rewrite <- (String.string_of_list_ascii_of_string s1),
          <- (String.string_of_list_ascii_of_string s2). by rewrite H.
Qed.

Lemma suffixes_differ (s t : string) : s +:+ "_labels.jpg" <> t +:+ "_pred.jpg".
Proof.
  intros H. apply (f_equal (fun x => rev (String.list_ascii_of_string x))) in H.
  rewrite !string_to_list_app, !rev_app_distr in H. simpl in H. discriminate H.
Qed.

(** ** The frame relations are preorders *)

#[export] Instance same_heap_refl : Reflexive same_heap.
Proof. by intros w. Qed.

#[export] Instance same_heap_trans : Transitive same_heap.
Proof. unfold same_heap. intros w1 w2 w3 H12 H23. congruence. Qed.

#[export] Instance same_settings_refl : Reflexive same_settings.
Proof. by intros w. Qed.

#[export] Instance same_settings_trans : Transitive same_settings.
Proof. unfold same_settings. intros w1 w2 w3 H12 H23. congruence. Qed.

#[export] Instance same_self_refl : Reflexive same_self.
Proof. by intros w. Qed.

#[export] Instance same_self_trans : Transitive same_self.
Proof. unfold same_self. intros w1 w2 w3 H12 H23. congruence. Qed.

#[export] Instance adds_refl (k : option kind) : Reflexive (adds k).
Proof. intros w. exists []. by rewrite app_nil_r. Qed.

#[export] Instance adds_trans (k : option kind) : Transitive (adds k).
Proof.
  intros w1 w2 w3 (e12 & H12 & F12) (e23 & H23 & F23).
  exists (e12 ++ e23). split; [by rewrite H23, H12, app_assoc|by apply Forall_app].
Qed.

#[export] Instance grows_refl : Reflexive grows.
Proof.
  intros w k. destruct (stat k w) as [l|] eqn:Hk; [|done]. exists []. by rewrite app_nil_r.
Qed.

#[export] Instance grows_trans : Transitive grows.
Proof.
  intros w1 w2 w3 H12 H23 k. specialize (H12 k). specialize (H23 k).
  destruct (stat k w1) as [l|].
  - destruct H12 as (xs & H12). rewrite H12 in H23. destruct H23 as (ys & H23).
    exists (xs ++ ys). by rewrite H23, app_assoc.
  - by rewrite H12 in H23.
Qed.

(** ** Dataset and dataloader *)

Section Loading.

Context (host : Host).

(** X1. [get_dataloader] never augments: it builds the dataset through
    [build_dataset] in mode ["val"], so [HumanDataset] is asked for no
    augmentation, with the validator's arguments and the prefix
    [colorstr("val: ")], and the dataset goes to [build_dataloader] with
    [args.workers] workers and rank -1.  An exception of the dataset
    constructor is raised before [build_dataloader] is called, and the
    world is left as it was in every case. *)
Theorem get_dataloader_never_augments (dataset_path batch_size : pyval) (w : world) :
  get_dataloader host dataset_path batch_size w =
    (attempt dataset <- HumanDataset host dataset_path false (v_args (self w))
                          (colorstr host "val: ");
     build_dataloader host dataset batch_size (workers (v_args (self w))) (-1),
     w).
Proof.
  unfold get_dataloader, build_dataset. rewrite bind_assoc, bind_gets, bind_lift.
  change (bool_decide ("val"%string = "train"%string)) with false.
  change ("val" +:+ ": ")%string with "val: "%string.
  destruct (HumanDataset host dataset_path false (v_args (self w)) (colorstr host "val: "))
    as [ds|e]; [|done].
  by rewrite bind_gets.
Qed.

End Loading.

(** ** [preprocess], continued *)

Lemma preprocess_missing_img (batch : loc) (w : world) (d : gmap string pyval) :
  heap w !! batch = Some d -> d !! "img"%string = None ->
  preprocess batch w = (Raise (KeyError "img"), w).
Proof.
  intros Hd Hi. unfold preprocess. rewrite bind_gets.
  apply bind_raise. by apply getitem_missing with (d := d).
Qed.

(** After its first two statements [preprocess] has replaced the image. *)
Lemma preprocess_img_done (batch : loc) (w : world) (d : gmap string pyval) (img : tensor) :
  heap w !! batch = Some d -> d !! "img"%string = Some (PyTensor img) ->
  let dev := v_device (self w) in
  let img' := if half (v_args (self w)) then Torch.half (Torch.to dev img)
              else Torch.float (Torch.to dev img) in
  let w1 := set_heap (<[batch := <["img"%string := PyTensor img']> d]> (heap w)) w in
  preprocess batch w
  = (do v <- getitem batch "attributes";
     do a <- as_tensor v;
     setitem batch "attributes" (PyTensor (Torch.float (Torch.to dev a))) ;;
     ret batch) w1.
Proof.
  intros Hd Hi dev img' w1. unfold preprocess. rewrite bind_gets.
  rewrite (bind_ok _ _ _ _ _ (getitem_some _ _ _ _ _ Hd Hi)).
  unfold as_tensor. rewrite bind_lift. cbn [tensor_of].
  rewrite (bind_ok _ _ _ _ _ (setitem_some _ _ _ _ _ Hd)).
  rewrite bind_gets. cbn [set_heap self heap].
  erewrite bind_ok; [|apply getitem_some with (d := <["img"%string := PyTensor (Torch.to dev img)]> d);
                      [apply lookup_insert_eq|apply lookup_insert_eq]].
  rewrite bind_lift. cbn [tensor_of].
  erewrite bind_ok; [|apply setitem_some; apply lookup_insert_eq].
  cbn [set_heap self heap trace]. unfold w1, set_heap. by rewrite !insert_insert_eq.
Qed.

(** X2. [preprocess] is not atomic.  On a batch without ["img"] it raises
    [KeyError] and changes nothing; on a batch that has an image tensor but
    no ["attributes"] it raises [KeyError] after it has replaced
    [batch["img"]] by the converted image: the caller is left with a
    half-converted batch. *)
Theorem preprocess_is_not_atomic (batch : loc) (w : world) (d : gmap string pyval) :
  heap w !! batch = Some d ->
  (d !! "img"%string = None -> preprocess batch w = (Raise (KeyError "img"), w))
  /\ (forall img,
        d !! "img"%string = Some (PyTensor img) ->
        d !! "attributes"%string = None ->
        exists d',
          (preprocess batch w).1 = Raise (KeyError "attributes")
          /\ heap (preprocess batch w).2 !! batch = Some d'
          /\ d' !! "img"%string
             = Some (PyTensor (if half (v_args (self w))
                               then Torch.half (Torch.to (v_device (self w)) img)
                               else Torch.float (Torch.to (v_device (self w)) img)))
          /\ d' !! "attributes"%string = None).
Proof.
  intros Hd. split; [by apply preprocess_missing_img|].
  intros img Hi Ha. rewrite (preprocess_img_done batch w d img Hd Hi).
  set (d1 := <["img"%string := _]> d).
  set (w1 := set_heap _ w).
  assert (Hd1 : heap w1 !! batch = Some d1) by apply lookup_insert_eq.
  assert (Ha1 : d1 !! "attributes"%string = None)
    by (unfold d1; by rewrite lookup_insert_ne).
  exists d1.
  rewrite (bind_raise _ _ w1 w1 (KeyError "attributes"));
    [|by apply getitem_missing with (d := d1)].
  cbn [fst snd]. split; [done|]. split; [done|].
  split; [apply lookup_insert_eq|done].
Qed.

(** *** Pixel values *)

Lemma round_half_bytes :
  forallb (fun n =>
             let x := F32.of_Z (Z.of_nat n) in
             bool_decide (renorm (F32.round_half x) = x)
             && bool_decide (renorm x = x)
             && bool_decide (F32.round_half (F32.round_half x) = F32.round_half x))
          (seq 0 256) = true.
Proof. vm_compute. reflexivity. Qed.

Lemma round_half_pixel (x : F32.float) :
  pixel x ->
  renorm (F32.round_half x) = x /\ renorm x = x
  /\ F32.round_half (F32.round_half x) = F32.round_half x.
Proof.
  intros (z & Hz & ->).
  pose proof round_half_bytes as H. rewrite forallb_forall in H.
  specialize (H (Z.to_nat z)). cbv zeta in H. rewrite Z2Nat.id in H by lia.
  apply andb_true_iff in H as [H12 H3]; [|apply in_seq; lia].
  apply andb_true_iff in H12 as [H1 H2].
  apply bool_decide_eq_true in H1, H2, H3. done.
Qed.

Lemma map_round_half_pixels (l : list F32.float) :
  Forall pixel l ->
  map renorm (map F32.round_half l) = l /\ map renorm l = l
  /\ map F32.round_half (map F32.round_half l) = map F32.round_half l.
Proof.
  induction 1 as [|x l Hx _ (IH1 & IH2 & IH3)]; simpl; [done|].
  destruct (round_half_pixel x Hx) as (H1 & H2 & H3).
  by rewrite H1, H2, H3, IH1, IH2, IH3.
Qed.

(** X3. [preprocess] keeps the pixel values: it moves and casts the image
    but does not rescale it.  For an image of 8-bit pixel values (integers
    from 0 to 255) the image stored under ["img"] afterwards holds, number for
    number, the values of the input, in half precision as well as in float
    (every such integer is a binary16 number); its shape is unchanged, it is
    on the validator's device, and its dtype is float16 if [args.half] is set
    and float32 otherwise. *)
Theorem preprocess_keeps_pixel_values (batch : loc) (w : world) (d : gmap string pyval)
    (img a : tensor) :
  heap w !! batch = Some d ->
  d !! "img"%string = Some (PyTensor img) ->
  d !! "attributes"%string = Some (PyTensor a) ->
  Forall pixel (t_data img) ->
  exists d' img',
    heap (preprocess batch w).2 !! batch = Some d'
    /\ d' !! "img"%string = Some (PyTensor img')
    /\ map renorm (t_data img') = t_data img /\ t_shape img' = t_shape img
    /\ t_device img' = v_device (self w)
    /\ t_dtype img' = (if half (v_args (self w)) then torch_float16 else torch_float32).
Proof.
  intros Hd Hi Ha Hpx. rewrite (preprocess_ok batch w d img a Hd Hi Ha).
  eexists _, _. cbn [snd set_heap heap]. split; [apply lookup_insert_eq|].
  split; [rewrite lookup_insert_ne by done; apply lookup_insert_eq|].
  destruct (half (v_args (self w))); cbn [Torch.half Torch.float Torch.to t_data t_shape
                                           t_device t_dtype].
  - split; [|done]. by apply map_round_half_pixels.
  - split; [|done]. by apply map_round_half_pixels.
Qed.

(** X4. A second [preprocess] changes nothing.  On a batch that holds
    tensors under ["img"] and ["attributes"], preprocessing the batch that
    [preprocess] returned gives the same result and the same world as
    preprocessing once, when the image is cast to float ([args.half] unset)
    or consists of 8-bit pixel values. *)
Theorem preprocess_twice (batch : loc) (w : world) (d : gmap string pyval)
    (img a : tensor) :
  heap w !! batch = Some d ->
  d !! "img"%string = Some (PyTensor img) ->
  d !! "attributes"%string = Some (PyTensor a) ->
  half (v_args (self w)) = false \/ Forall pixel (t_data img) ->
  (do b <- preprocess batch; preprocess b) w = preprocess batch w.
Proof.
  intros Hd Hi Ha Hcase.
  rewrite (bind_ok _ _ _ _ _ (preprocess_ok batch w d img a Hd Hi Ha)).
  rewrite (preprocess_ok batch w d img a Hd Hi Ha).
  set (dev := v_device (self w)).
  set (img' := if half (v_args (self w)) then _ else _).
  set (a' := Torch.float (Torch.to dev a)).
  set (d1 := <["attributes"%string := PyTensor a']> (<["img"%string := PyTensor img']> d)).
  set (w1 := set_heap _ w).
  assert (Himg : (if half (v_args (self w)) then Torch.half (Torch.to dev img')
                  else Torch.float (Torch.to dev img')) = img').
  { unfold img'. destruct (half (v_args (self w))) eqn:Hh; [|done].
    destruct Hcase as [|Hpx]; [done|].
    unfold Torch.half, Torch.to. cbn [t_data t_shape t_device t_dtype].
    by destruct (map_round_half_pixels _ Hpx) as (_ & _ & ->). }
  rewrite (preprocess_ok batch w1 d1 img' a').
  - unfold w1, set_heap. cbn [self heap trace]. fold dev. rewrite Himg.
    replace (Torch.float (Torch.to dev a')) with a' by done.
    do 2 f_equal. rewrite insert_insert_eq. f_equal. unfold d1.
    apply map_eq. intros k.
    destruct (decide (k = "attributes"%string)) as [->|Hka]; [by rewrite !lookup_insert_eq|].
    rewrite !(lookup_insert_ne _ "attributes"%string) by done.
    destruct (decide (k = "img"%string)) as [->|Hki]; [by rewrite !lookup_insert_eq|].
    by repeat (rewrite lookup_insert_ne by done).
  - apply lookup_insert_eq.
  - unfold d1. rewrite lookup_insert_ne by done. apply lookup_insert_eq.
  - apply lookup_insert_eq.
Qed.

(** ** [update_metrics], continued *)

Section UpdateMetricsMore.

Context (host : Host).


(** *** One prediction against many ground truths *)











(** X8. Predictions and ground truth must be on one device.  When the
    predicted weights are a tensor (not a 0-dim scalar) on another device
    than the ground truth of shape [[n; 5]], the first subtraction raises
    [RuntimeError]; [update_metrics] raises it with nothing recorded and
    the world unchanged. *)
Theorem update_metrics_needs_one_device (preds : pyval) (batch : loc) (n : nat) (w : world)
    (h : Human.t) (d : gmap string pyval) (gt : tensor) :
  Human_new host preds = Ok h ->
  heap w !! batch = Some d -> d !! "attributes"%string = Some (PyTensor gt) ->
  t_shape gt = [n; 5%nat] ->
  t_shape (Human.weight h) <> [] -> t_device (Human.weight h) <> t_device gt ->
  update_metrics host preds batch w = (Raise RuntimeError, w).
Proof.
  intros Hh Hd Hgt Hs Hne Hdev. rewrite update_metrics_paragraphs, bind_lift, Hh.
  rewrite (bind_ok _ _ _ _ _ (getitem_some _ _ _ _ _ Hd Hgt)).
  unfold as_tensor. rewrite bind_lift. cbn [tensor_of]. rewrite bind_lift.
  replace (accuracies h gt)
    with (Raise RuntimeError : res (tensor * tensor * tensor * tensor * tensor)); [done|].
  unfold accuracies, Torch.select_col. rewrite Hs. cbn [Nat.ltb Nat.leb numel foldr res_bind].
  unfold rel_acc, Torch.sub.
  destruct (bool_decide (t_dtype (Human.weight h) = torch_bool) && _); [done|].
  unfold Torch.binop, Torch.devices_ok, Torch.is_cpu_scalar.
  cbn [t_shape t_device].
  rewrite (bool_decide_false (t_device (Human.weight h) = t_device gt)) by done.
  rewrite (bool_decide_false (t_shape (Human.weight h) = [])) by done.
  by rewrite (bool_decide_false ([n] = [])).
Qed.

(** *** Label files, continued *)

Lemma omap_lookup_total {A B} (g : A -> option B) (l : list A) :
  (forall j x, l !! j = Some x -> is_Some (g x)) ->
  forall j x, l !! j = Some x -> omap g l !! j = g x.
Proof.
  induction l as [|a l IH]; intros Hall j x Hj; [by rewrite lookup_nil in Hj|].
  destruct (Hall 0%nat a eq_refl) as [b Hb]. cbn [omap list_omap]. rewrite Hb.
  destruct j as [|j]; simpl in *.
  - injection Hj as <-. by rewrite Hb.
  - apply IH; [|done]. intros j' x' Hj'. by apply (Hall (S j')).
Qed.

Lemma saved_files_add_trace (evs : list effect) (w : world) :
  saved_files (add_trace evs w)
  = saved_files w
    ++ omap (fun e => match e with SaveTxt f _ _ _ _ _ => Some f | _ => None end) evs.
Proof. unfold saved_files, add_trace. cbn [trace]. apply omap_app. Qed.

Lemma label_path_inj (save_dir : path) (s1 s2 : string) :
  save_dir ++ ["labels"%string; s1 +:+ ".txt"] = save_dir ++ ["labels"%string; s2 +:+ ".txt"]
  <-> s1 = s2.
Proof.
  split; [|by intros ->].
  intros H. apply app_inv_head in H. injection H as H. by apply string_app_inj_r in H.
Qed.

(** X9. Label files collide on equal stems.  After a call that returned
    with [save_txt] set, the label files of predictions [i] and [j] are
    [save_dir / "labels" / (stem + ".txt")] for the stems of the [i]-th and
    [j]-th image paths, and they are the same file exactly when the two
    stems are equal: the labels of images that differ only in directory or
    extension go to one file. *)
Theorem update_metrics_label_files_collide (preds : pyval) (batch : loc) (w w' : world)
    (h : Human.t) (d : gmap string pyval) (files : pyval) (i j : nat) (fi fj : string) :
  update_metrics host preds batch w = (Ok tt, w') ->
  save_txt (v_args (self w)) = true ->
  Human_new host preds = Ok h ->
  heap w !! batch = Some d -> d !! "im_file"%string = Some files ->
  subscript files i = Ok (PyStr fi) -> subscript files j = Ok (PyStr fj) ->
  (i < length (Human.items h))%nat -> (j < length (Human.items h))%nat ->
  exists pi pj,
    saved_files w' !! (length (saved_files w) + i)%nat = Some pi
    /\ saved_files w' !! (length (saved_files w) + j)%nat = Some pj
    /\ pi = v_save_dir (self w) ++ ["labels"%string; Path_stem host fi +:+ ".txt"]
    /\ pj = v_save_dir (self w) ++ ["labels"%string; Path_stem host fj +:+ ".txt"]
    /\ (pi = pj <-> Path_stem host fi = Path_stem host fj).
Proof.
  intros Hrun Hst Hh Hd Hf Hi Hj Hli Hlj.
  destruct (update_metrics_effects host preds batch w (Ok tt) w' Hrun)
    as (m' & evs & -> & _ & Hon).
  destruct (Hon eq_refl Hst) as (h' & Hh' & Hlen & Hevs).
  assert (h' = h) as -> by congruence.
  assert (Hfile : forall k fk,
            (k < length (Human.items h))%nat -> subscript files k = Ok (PyStr fk) ->
            saved_files (add_trace evs (set_metrics m' w)) !! (length (saved_files w) + k)%nat
            = Some (v_save_dir (self w) ++ ["labels"%string; Path_stem host fk +:+ ".txt"])).
  { intros k fk Hk Hfk. rewrite saved_files_add_trace.
    change (saved_files (set_metrics m' w)) with (saved_files w).
    rewrite lookup_app_r by apply Nat.le_add_r.
    rewrite Nat.add_comm, Nat.add_sub.
    destruct (lookup_lt_is_Some_2 evs k) as [ev Hev]; [lia|].
    rewrite (omap_lookup_total _ evs) with (x := ev); [|intros j' x Hx|done].
    - destruct (Hevs k ev Hev) as (pred & _ & d0 & files0 & im & hh & wd & Hd0 & Hf0 & Hs0 & ->).
      assert (d0 = d) as -> by congruence. assert (files0 = files) as -> by congruence.
      assert (im = fk) as -> by congruence. done.
    - destruct (Hevs j' x Hx) as (pred & _ & d0 & files0 & im & hh & wd & _ & _ & _ & ->).
      by eexists. }
  eexists _, _. split; [by apply Hfile|]. split; [by apply Hfile|].
  split; [done|]. split; [done|].
  apply label_path_inj.
Qed.






End UpdateMetricsMore.

(** ** [save_one_txt] *)


(** ** Reporting *)

Section Reporting.

Context (host : Host).

(** X12. The row that [print_results] logs lines up with the header of
    [get_desc].  When the metrics give one mean result per key (each
    formatted by [%11.3g] to at most 11 characters, as Python does) the hook
    logs exactly one line, of 22 + 11 * (number of keys) characters; for the
    five attribute keys that is the width of the header returned by
    [get_desc].  When the number of mean results differs from the number
    of keys the format does not fit: [TypeError] is raised and nothing is
    logged. *)
Theorem print_results_lines_up_with_header (w : world) (rs : list F32.float) :
  metrics_mean_results host (v_metrics (self w)) = Ok rs ->
  Forall (fun x => (String.length (format_3g host x) <= 11)%nat) rs ->
  (length rs = length (metrics_keys host (v_metrics (self w))) ->
   exists line,
     print_results host w = (Ok tt, add_trace [LogInfo line] w)
     /\ String.length line = (22 + 11 * length rs)%nat
     /\ (length rs = 5%nat -> String.length line = String.length get_desc))
  /\ (length rs <> length (metrics_keys host (v_metrics (self w))) ->
      print_results host w = (Raise TypeError, w)).
Proof.
  intros Hrs Hfmt. unfold print_results. rewrite bind_gets, bind_lift, Hrs. split.
  - intros Hlen. rewrite bool_decide_true by done. eexists. split; [reflexivity|].
    assert (Hline : String.length
              (rjust 22 "all" +:+
               String.concat EmptyString (map (fun x => rjust 11 (format_3g host x)) rs))
            = (22 + 11 * length rs)%nat).
    { rewrite string_length_app, rjust_length.
      rewrite (concat_fields_length _ 11), length_map; [done|].
      apply Forall_map. eapply Forall_impl; [exact Hfmt|].
      intros x Hx. simpl in *. rewrite rjust_length. lia. }
    split; [exact Hline|]. intros H5. rewrite Hline, H5. reflexivity.
  - intros Hlen. by rewrite bool_decide_false.
Qed.

(** ** [finalize_metrics] *)

Lemma commutes_ret {A} (f : world -> world) (a : A) : commutes f (ret a).
Proof. by intros w. Qed.

Lemma commutes_raise {A} (f : world -> world) (e : pyerr) : commutes f (raise e : M A).
Proof. by intros w. Qed.

Lemma commutes_lift {A} (f : world -> world) (r : res A) : commutes f (lift r).
Proof. by intros w. Qed.

Lemma commutes_gets {A} (f : world -> world) (g : world -> A) :
  (forall w, g (f w) = g w) -> commutes f (gets g).
Proof. intros Hg w. unfold gets. cbn [fst snd]. by rewrite Hg. Qed.

Lemma commutes_bind {A B} (f : world -> world) (m : M A) (k : A -> M B) :
  commutes f m -> (forall a, commutes f (k a)) -> commutes f (bind m k).
Proof.
  intros Hm Hk w. unfold bind. rewrite Hm.
  destruct (m w) as [[a|e] w1]; cbn [fst snd]; [apply Hk|done].
Qed.

Lemma commutes_for_each {A} (f : world -> world) (g : A -> M unit) (l : list A) :
  (forall x, commutes f (g x)) -> commutes f (for_each g l).
Proof.
  intros Hg. induction l as [|x l IH]; cbn [for_each].
  - apply commutes_ret.
  - apply commutes_bind; [apply Hg|by intros _].
Qed.

Lemma commutes_getitem (f : world -> world) (batch : loc) (k : string) :
  (forall w, heap (f w) = heap w) -> commutes f (getitem batch k).
Proof.
  intros Hf w. unfold getitem. rewrite Hf.
  destruct (heap w !! batch) as [d|]; [|done]. by destruct (d !! k).
Qed.

Lemma finalized_append_stat (k : string) (x : tensor) : commutes finalized (append_stat k x).
Proof.
  intros w. unfold append_stat, finalized, finalize_metrics, modify. cbn.
  by destruct (attrs_stats (v_metrics (self w)) !! k).
Qed.

Lemma finalized_emit (e : effect) : commutes finalized (emit e).
Proof. by intros w. Qed.

Lemma update_metrics_finalized (preds : pyval) (batch : loc) :
  commutes finalized (update_metrics host preds batch).
Proof.
  unfold update_metrics, save_one_txt, as_tensor, index, as_dim.
  repeat first
    [ solve [apply commutes_ret]
    | solve [apply commutes_raise]
    | solve [apply commutes_lift]
    | solve [apply commutes_gets; by intros ?]
    | solve [apply commutes_getitem; by intros ?]
    | solve [apply finalized_append_stat]
    | solve [apply finalized_emit]
    | apply commutes_bind; [|intros ?]
    | apply commutes_for_each; intros [? ?]
    | match goal with
      | |- commutes _ (match ?x with _ => _ end) => destruct x
      end ].
Qed.

(** X13. [finalize_metrics] can be called at any time.  It never raises,
    copies the validator's speed and confusion matrix into the accumulator
    and keeps every recorded array; calling it twice is calling it once;
    and it commutes with [update_metrics]: an update after it gives the
    same result as before it, and the world that finalizing after the update
    would have given. *)
Theorem finalize_metrics_commutes_with_update_metrics (preds : pyval) (batch : loc)
    (w : world) :
  finalize_metrics w = (Ok tt, finalized w)
  /\ speed (v_metrics (self (finalized w))) = v_speed (self w)
  /\ confusion_matrix (v_metrics (self (finalized w))) = v_confusion_matrix (self w)
  /\ (forall k, stat k (finalized w) = stat k w)
  /\ finalized (finalized w) = finalized w
  /\ update_metrics host preds batch (finalized w)
     = ((update_metrics host preds batch w).1,
        finalized (update_metrics host preds batch w).2).
Proof.
  do 5 (split; [done|]). apply update_metrics_finalized.
Qed.

End Reporting.

(** ** The outcomes of the plot hooks *)

Section PlotOutcomes.

Lemma plot_val_samples_ok (batch : loc) (ni : Z) (w : world) (d : gmap string pyval)
    (images a : pyval) (n : nat) (c : tensor) :
  heap w !! batch = Some d -> d !! "img"%string = Some images -> len_of images = Ok n ->
  d !! "cls"%string = Some (PyTensor c) -> d !! "attributes"%string = Some a ->
  plot_val_samples batch ni w =
    (Ok tt,
     add_trace [PlotImages images (Torch.arange n) (Torch.view_flat c) a
                  (v_save_dir (self w) ++ ["val_batch" +:+ pretty ni +:+ "_labels.jpg"])
                  (v_names (self w)) (v_on_plot (self w))] w).
Proof.
  intros Hd Hi Hn Hc Ha. unfold plot_val_samples, len, as_tensor.
  rewrite (bind_ok _ _ _ _ _ (getitem_some _ _ _ _ _ Hd Hi)).
  rewrite (bind_ok _ _ _ _ _ (getitem_some _ _ _ _ _ Hd Hi)).
  rewrite bind_lift, Hn.
  rewrite (bind_ok _ _ _ _ _ (getitem_some _ _ _ _ _ Hd Hc)).
  rewrite bind_lift. cbn [tensor_of].
  rewrite (bind_ok _ _ _ _ _ (getitem_some _ _ _ _ _ Hd Ha)).
  by rewrite !bind_gets.
Qed.

Lemma plot_val_samples_cases (batch : loc) (ni : Z) (w : world) :
  (exists e, plot_val_samples batch ni w = (Raise e, w))
  \/ (exists d images n c a,
        heap w !! batch = Some d /\ d !! "img"%string = Some images /\ len_of images = Ok n
        /\ d !! "cls"%string = Some (PyTensor c) /\ d !! "attributes"%string = Some a).
Proof.
  unfold plot_val_samples, len, as_tensor.
  destruct (heap w !! batch) as [d|] eqn:Hd;
    [|left; eexists; apply bind_raise; unfold getitem; by rewrite Hd].
  destruct (d !! "img"%string) as [images|] eqn:Hi;
    [|left; eexists; apply bind_raise; by apply getitem_missing with (d := d)].
  rewrite (bind_ok _ _ _ _ _ (getitem_some _ _ _ _ _ Hd Hi)).
  rewrite (bind_ok _ _ _ _ _ (getitem_some _ _ _ _ _ Hd Hi)).
  rewrite bind_lift. destruct (len_of images) as [n|e] eqn:Hn; [|left; by eexists].
  destruct (d !! "cls"%string) as [v|] eqn:Hc;
    [|left; eexists; apply bind_raise; by apply getitem_missing with (d := d)].
  rewrite (bind_ok _ _ _ _ _ (getitem_some _ _ _ _ _ Hd Hc)).
  rewrite bind_lift. destruct (tensor_of v) as [c|e] eqn:Hv; [|left; by eexists].
  assert (v = PyTensor c) as -> by (destruct v; simpl in Hv; congruence).
  destruct (d !! "attributes"%string) as [a|] eqn:Ha;
    [|left; eexists; apply bind_raise; by apply getitem_missing with (d := d)].
  right. by exists d, images, n, c, a.
Qed.

Lemma plot_predictions_cases (batch : loc) (preds : pyval) (ni : Z) (w : world) :
  (exists e, plot_predictions batch preds ni w = (Raise e, w))
  \/ (exists images batch_idx cls attributes,
        plot_predictions batch preds ni w =
          (Ok tt,
           add_trace [PlotImages images batch_idx cls attributes
                        (v_save_dir (self w) ++ ["val_batch" +:+ pretty ni +:+ "_pred.jpg"])
                        (v_names (self w)) (v_on_plot (self w))] w)).
Proof.
  unfold plot_predictions, as_tensor, len.
  repeat (rewrite bind_lift;
          match goal with
          | |- context [match ?r with Ok _ => _ | Raise _ => _ end] =>
              destruct r; [|left; by eexists]
          end).
  destruct (getitem_pure batch "img" w) as ([images|e] & Himg);
    [|left; exists e; by apply bind_raise].
  rewrite (bind_ok _ _ _ _ _ Himg), (bind_ok _ _ _ _ _ Himg).
  repeat (rewrite bind_lift;
          match goal with
          | |- context [match ?r with Ok _ => _ | Raise _ => _ end] =>
              destruct r; [|left; by eexists]
          end).
  right. rewrite !bind_gets. by eexists _, _, _, _.
Qed.

End PlotOutcomes.

(** ** What every hook leaves alone *)

Section HookFrames.

Context (host : Host).

Lemma append_stat_same_heap (k : string) (x : tensor) : preserves same_heap (append_stat k x).
Proof.
  intros w r w' Hrun. destruct (append_stat_frame k x w) as (r0 & m' & Hr0).
  rewrite Hr0 in Hrun. by injection Hrun as <- <-.
Qed.

Lemma append_stat_same_settings (k : string) (x : tensor) :
  preserves same_settings (append_stat k x).
Proof.
  intros w r w' Hrun. destruct (append_stat_frame k x w) as (r0 & m' & Hr0).
  rewrite Hr0 in Hrun. by injection Hrun as <- <-.
Qed.

Lemma append_stat_adds (k : option kind) (key : string) (x : tensor) :
  preserves (adds k) (append_stat key x).
Proof.
  intros w r w' Hrun. destruct (append_stat_frame key x w) as (r0 & m' & Hr0).
  rewrite Hr0 in Hrun. injection Hrun as <- <-. exists []. simpl. by rewrite app_nil_r.
Qed.

Lemma append_stat_grows (k : string) (x : tensor) : preserves grows (append_stat k x).
Proof.
  intros w r w' Hrun k'. destruct (stat k w) as [l|] eqn:Hk.
  - rewrite (append_stat_some _ _ _ _ Hk) in Hrun. injection Hrun as <- <-.
    unfold stat in *. cbn [set_metrics self v_metrics attrs_stats].
    destruct (decide (k' = k)) as [->|Hne].
    + rewrite Hk, lookup_insert_eq. by eexists.
    + rewrite lookup_insert_ne by done.
      destruct (attrs_stats (v_metrics (self w)) !! k') as [l'|]; [|done].
      exists []. by rewrite app_nil_r.
  - rewrite (append_stat_none _ _ _ Hk) in Hrun. injection Hrun as <- <-. apply grows_refl.
Qed.

Lemma setitem_same_self (batch : loc) (k : string) (v : pyval) :
  preserves same_self (setitem batch k v).
Proof.
  intros w r w' Hrun. unfold setitem in Hrun.
  destruct (heap w !! batch); by injection Hrun as <- <-.
Qed.

Lemma setitem_same_settings (batch : loc) (k : string) (v : pyval) :
  preserves same_settings (setitem batch k v).
Proof.
  intros w r w' Hrun. unfold setitem in Hrun.
  destruct (heap w !! batch); by injection Hrun as <- <-.
Qed.

Lemma setitem_adds (k : option kind) (batch : loc) (key : string) (v : pyval) :
  preserves (adds k) (setitem batch key v).
Proof.
  intros w r w' Hrun. unfold setitem in Hrun.
  destruct (heap w !! batch); injection Hrun as <- <-; exists []; simpl;
    by rewrite app_nil_r.
Qed.

Lemma setitem_grows (batch : loc) (k : string) (v : pyval) :
  preserves grows (setitem batch k v).
Proof.
  intros w r w' Hrun. unfold setitem in Hrun.
  destruct (heap w !! batch); injection Hrun as <- <-; exact (grows_refl w).
Qed.

Lemma emit_adds (e : effect) : preserves (adds (Some (kind_of e))) (emit e).
Proof. apply preserves_modify. intros w. exists [e]. split; [done|]. by repeat constructor. Qed.

Lemma modify_adds (k : option kind) (f : world -> world) :
  (forall w, trace (f w) = trace w) -> preserves (adds k) (modify f).
Proof.
  intros Hf. apply preserves_modify. intros w. exists []. by rewrite Hf, app_nil_r.
Qed.

Lemma modify_grows (f : world -> world) :
  (forall w, attrs_stats (v_metrics (self (f w))) = attrs_stats (v_metrics (self w))) ->
  preserves grows (modify f).
Proof.
  intros Hf. apply preserves_modify. intros w k. unfold stat. rewrite Hf.
  destruct (attrs_stats (v_metrics (self w)) !! k); [|done]. exists []. by rewrite app_nil_r.
Qed.

(** Follows the structure of a hook, closing the primitives that change
    the world with [tac]. *)
Ltac frame_with tac :=
  repeat first
    [ progress frame
    | solve [tac]
    | solve [apply preserves_modify; intros ?; reflexivity]
    | apply preserves_for_each; [typeclasses eauto..|intros [? ?]]
    | match goal with
      | |- preserves _ (match ?x with _ => _ end) => destruct x
      end ].

Ltac unfold_hooks :=
  unfold call, build_dataset, preprocess, postprocess, update_metrics,
    save_one_txt, get_dataloader, build_dataset, finalize_metrics, get_stats,
    print_results, plot_val_samples, plot_predictions.

Lemma call_same_heap (h : hook) : is_preprocess h = false -> preserves same_heap (call host h).
Proof.
  intros Hh. destruct h; try discriminate Hh; unfold_hooks;
    frame_with ltac:(apply append_stat_same_heap).
Qed.

Lemma call_same_settings (h : hook) : preserves same_settings (call host h).
Proof.
  destruct h; unfold_hooks;
    frame_with ltac:(first [apply append_stat_same_settings | apply setitem_same_settings]).
Qed.

Lemma call_same_self (h : hook) : writes_metrics h = false -> preserves same_self (call host h).
Proof.
  intros Hh. destruct h; try discriminate Hh; unfold_hooks;
    frame_with ltac:(apply setitem_same_self).
Qed.

Lemma call_adds (h : hook) : preserves (adds (emits h)) (call host h).
Proof.
  destruct h; unfold_hooks; cbn [emits];
    frame_with ltac:(first [apply append_stat_adds
                           | apply setitem_adds
                           | apply (emit_adds (SaveTxt _ _ _ _ _ _))
                           | apply (emit_adds (PlotImages _ _ _ _ _ _ _))
                           | apply (emit_adds (LogInfo _))
                           | apply modify_adds; by intros ? ]).
Qed.

Lemma call_grows (h : hook) : is_get_stats h = false -> preserves grows (call host h).
Proof.
  intros Hh. destruct h; try discriminate Hh; unfold_hooks; unfold emit;
    frame_with ltac:(first [apply append_stat_grows
                           | apply setitem_grows
                           | apply modify_grows; by intros ? ]).
Qed.

(** X14. No hook but [preprocess] touches a batch: after a call of any
    other hook, whether it returned or raised, every batch dictionary holds
    what it held before. *)
Theorem hooks_keep_the_batches (h : hook) (w : world) :
  is_preprocess h = false -> heap (call host h w).2 = heap w.
Proof.
  intros Hh. apply (call_same_heap h Hh w (call host h w).1). by destruct (call host h w).
Qed.

(** X15. No hook changes the validator's settings: [args], [device],
    [save_dir], [names], [on_plot], [speed] and [confusion_matrix] are after
    every call, returned or raised, what they were before.  Only
    [update_metrics], [finalize_metrics] and [get_stats] assign to the
    accumulator [metrics]; every other hook leaves the whole validator
    object as it was. *)
Theorem hooks_keep_the_settings (h : hook) (w : world) :
  settings (self (call host h w).2) = settings (self w)
  /\ (writes_metrics h = false -> self (call host h w).2 = self w).
Proof.
  split.
  - apply (call_same_settings h w (call host h w).1). by destruct (call host h w).
  - intros Hh. apply (call_same_self h Hh w (call host h w).1). by destruct (call host h w).
Qed.

(** A hook other than [update_metrics] adds at most one effect. *)
Lemma call_adds_one (h : hook) (w : world) :
  match h with Update_metrics _ _ => False | _ => True end ->
  trace (call host h w).2 = trace w
  \/ exists e, trace (call host h w).2 = trace w ++ [e].
Proof.
  intros Hh.
  destruct (emits h) as [k|] eqn:Hk.
  - destruct h as [ip md bt|bt|ps|ps bt|pn sc sh fl| |dp bs| | | |bt ni|bt ps ni];
      try discriminate Hk; try done; unfold call.
    + destruct (save_one_txt_run pn sc sh fl w) as [[e He]|(hh & wd & Hrun)].
      * left. by rewrite (bind_raise _ _ _ _ _ He).
      * right. eexists. by rewrite (bind_ok _ _ _ _ _ Hrun).
    + unfold print_results. rewrite bind_assoc, bind_gets, bind_assoc, bind_lift.
      destruct (metrics_mean_results host (v_metrics (self w))) as [rs|e]; [|by left].
      destruct (bool_decide _); [right; by eexists|by left].
    + destruct (plot_val_samples_cases bt ni w)
        as [[e He]|(d & images & n & c & a & Hd & Hi & Hn & Hc & Ha)].
      * left. by rewrite (bind_raise _ _ _ _ _ He).
      * right. eexists.
        by rewrite (bind_ok _ _ _ _ _ (plot_val_samples_ok bt ni w d images a n c
                                          Hd Hi Hn Hc Ha)).
    + destruct (plot_predictions_cases bt ps ni w)
        as [[e He]|(images & bi & cls & attrs & Hrun)].
      * left. by rewrite (bind_raise _ _ _ _ _ He).
      * right. eexists. by rewrite (bind_ok _ _ _ _ _ Hrun).
  - left. destruct (call_adds h w (call host h w).1 (call host h w).2) as (evs & Ht & Hf);
      [by destruct (call host h w)|].
    destruct evs as [|e evs]; [by rewrite app_nil_r in Ht|].
    apply Forall_cons in Hf as [Hf _]. congruence.
Qed.

(** X16. A hook only adds effects, and only of its own kind: the effects
    after a call are those before it followed by label files for
    [update_metrics] and [save_one_txt], by plots for [plot_val_samples] and
    [plot_predictions], by log lines for [print_results], and by nothing for
    every other hook.  Every hook but [update_metrics], which writes one
    label file per prediction, adds at most one effect. *)
Theorem hooks_add_effects_of_their_kind (h : hook) (w : world) :
  exists evs,
    trace (call host h w).2 = trace w ++ evs
    /\ Forall (fun e => emits h = Some (kind_of e)) evs
    /\ (emits h = None -> evs = [])
    /\ match h with Update_metrics _ _ => True | _ => (length evs <= 1)%nat end.
Proof.
  destruct (call_adds h w (call host h w).1 (call host h w).2) as (evs & Ht & Hk);
    [by destruct (call host h w)|].
  exists evs. split; [done|]. split; [done|]. split.
  - intros Hn. destruct evs as [|e evs]; [done|].
    apply Forall_cons in Hk as [Hk _]. congruence.
  - assert (Hone : match h with Update_metrics _ _ => False | _ => True end ->
                   (length evs <= 1)%nat).
    { intros Hh. destruct (call_adds_one h w Hh) as [Hsame|[e He]].
      - rewrite Hsame in Ht. rewrite <- (app_nil_r (trace w)) in Ht at 1.
        apply app_inv_head in Ht as <-. simpl. lia.
      - rewrite He in Ht. apply app_inv_head in Ht as <-. simpl. lia. }
    destruct h; try done; by apply Hone.
Qed.

(** X17. Recorded accuracy arrays are kept.  Whatever hook other than
    [get_stats] is called (through which the metrics object processes and
    may replace its own state), and whether it returns or raises, each list
    of the accumulator afterwards is the list before, followed by the arrays
    the call appended: no array is dropped, replaced or reordered, and no
    key appears or disappears. *)
Theorem hooks_keep_recorded_arrays (h : hook) (w : world) (k : string) :
  is_get_stats h = false ->
  match stat k w with
  | Some l => exists xs, stat k (call host h w).2 = Some (l ++ xs)
  | None => stat k (call host h w).2 = None
  end.
Proof.
  intros Hh.
  apply (call_grows h Hh w (call host h w).1 (call host h w).2).
  by destruct (call host h w).
Qed.

End HookFrames.

(** ** Plots *)

Section Plots.

Context (host : Host).

Lemma plot_name_inj (k1 k2 : bool * Z) : plot_name k1 = plot_name k2 -> k1 = k2.
Proof.
  destruct k1 as [b1 n1], k2 as [b2 n2]. unfold plot_name. cbn [fst snd].
  intros H. apply (inj (String.append "val_batch")) in H.
  destruct b1, b2.
  - apply string_app_inj_r in H. by apply (inj pretty) in H as ->.
  - symmetry in H. by apply suffixes_differ in H.
  - by apply suffixes_differ in H.
  - apply string_app_inj_r in H. by apply (inj pretty) in H as ->.
Qed.

Lemma plot_file_inj (save_dir : path) (k1 k2 : bool * Z) :
  save_dir ++ [plot_name k1] = save_dir ++ [plot_name k2] -> k1 = k2.
Proof.
  intros H. apply app_inv_head in H.
  apply (f_equal (fun l => default EmptyString (head l))) in H.
  exact (plot_name_inj _ _ H).
Qed.

Lemma plotted_add_trace (evs : list effect) (w : world) :
  plotted (add_trace evs w)
  = plotted w
    ++ omap (fun e => match e with PlotImages _ _ _ _ f _ _ => Some f | _ => None end) evs.
Proof. unfold plotted, add_trace. cbn [trace]. apply omap_app. Qed.

(** *** [plot_val_samples] *)


(** *** [plot_predictions] on any number of columns *)









(** *** Plot files over a run *)

(** One call adds at most one plot file, named after its key. *)
Lemma call_plots (h : hook) (w : world) :
  plotted (call host h w).2 = plotted w
  \/ exists k, plot_key h = Some k
               /\ plotted (call host h w).2 = plotted w ++ [v_save_dir (self w) ++ [plot_name k]].
Proof.
  destruct (plot_key h) as [k|] eqn:Hk.
  - destruct h as [ip md bt|bt|ps|ps bt|pn sc sh fl| |dp bs| | | |bt ni|bt ps ni];
      try discriminate Hk; injection Hk as <-; unfold call.
    + destruct (plot_val_samples_cases bt ni w)
        as [[e He]|(d & images & n & c & a & Hd & Hi & Hn & Hc & Ha)].
      * left. by rewrite (bind_raise _ _ _ _ _ He).
      * right. eexists; split; [done|].
        rewrite (bind_ok _ _ _ _ _ (plot_val_samples_ok bt ni w d images a n c
                                       Hd Hi Hn Hc Ha)).
        cbn [ret snd]. by rewrite plotted_add_trace.
    + destruct (plot_predictions_cases bt ps ni w)
        as [[e He]|(images & bi & cls & attrs & Hrun)].
      * left. by rewrite (bind_raise _ _ _ _ _ He).
      * right. eexists; split; [done|].
        rewrite (bind_ok _ _ _ _ _ Hrun). cbn [ret snd]. by rewrite plotted_add_trace.
  - left.
    destruct (call_adds host h w (call host h w).1 (call host h w).2) as (evs & Ht & Hkind);
      [by destruct (call host h w)|].
    unfold plotted. rewrite Ht, omap_app.
    replace (omap _ evs) with (@nil path); [by rewrite app_nil_r|].
    symmetry. clear Ht. induction Hkind as [|e evs He _ IH]; [done|].
    cbn [omap list_omap]. rewrite <- IH.
    destruct e; [done| |done]. destruct h; discriminate.
Qed.

Lemma run_plots (hs : list hook) :
  forall (w : world) (ks : list (bool * Z)),
    plotted w = map (fun k => v_save_dir (self w) ++ [plot_name k]) ks ->
    NoDup (ks ++ omap plot_key hs) ->
    exists ks', plotted (run host hs w).2
                = map (fun k => v_save_dir (self w) ++ [plot_name k]) ks'
                /\ NoDup ks'.
Proof.
  induction hs as [|h hs IH]; intros w ks Hw Hnd.
  - exists ks. split; [done|]. by rewrite app_nil_r in Hnd.
  - unfold run. cbn [for_each]. fold (run host hs).
    assert (Hsd : v_save_dir (self (call host h w).2) = v_save_dir (self w)).
    { pose proof (call_same_settings host h w (call host h w).1 (call host h w).2
                    ltac:(by destruct (call host h w))) as Hs.
      unfold same_settings, settings in Hs. by injection Hs. }
    assert (Hnext : exists ks1,
              plotted (call host h w).2
              = map (fun k => v_save_dir (self w) ++ [plot_name k]) ks1
              /\ NoDup ks1 /\ NoDup (ks1 ++ omap plot_key hs)).
    { destruct (call_plots h w) as [Hsame|(k & Hk & Hadd)].
      - exists ks. rewrite Hsame. split; [done|].
        split; [by apply NoDup_app in Hnd as [? _]|].
        cbn [omap list_omap] in Hnd. destruct (plot_key h); [|done].
        apply NoDup_app in Hnd as (H1 & H2 & H3). apply NoDup_app.
        split; [done|]. split; [|by apply NoDup_cons in H3 as [_ ?]].
        intros x Hx Hin. apply (H2 x Hx). by right.
      - exists (ks ++ [k]). rewrite Hadd, Hw, map_app. split; [done|].
        cbn [omap list_omap] in Hnd. rewrite Hk in Hnd.
        rewrite <- app_assoc. cbn [app].
        split; [|done].
        apply NoDup_app in Hnd as (H1 & H2 & H3). apply NoDup_app.
        split; [done|]. split; [|apply NoDup_singleton].
        intros x Hx Hin. apply list_elem_of_singleton in Hin as ->.
        apply (H2 k Hx). by left. }
    destruct Hnext as (ks1 & Hp1 & Hnd1 & Hnd1').
    destruct (call host h w) as [[v|e] w1] eqn:Hcall; cbn [snd] in *.
    + rewrite (bind_ok _ _ w w1 tt); [|unfold bind; by rewrite Hcall].
      rewrite <- Hsd in Hp1. destruct (IH w1 ks1 Hp1 Hnd1') as (ks' & Hks & Hnd').
      exists ks'. by rewrite <- Hsd.
    + rewrite (bind_raise _ _ w w1 e); [|unfold bind; by rewrite Hcall].
      by exists ks1.
Qed.

(** X22. Plots never overwrite each other.  Over a run of hook calls of
    any kind, in which no (kind of plot, batch index) pair is plotted twice,
    all the plot files written are different files: the two plot hooks never
    share a file name, and different batch indices give different names. *)
Theorem plots_never_overwrite (hs : list hook) (w : world) :
  plotted w = [] ->
  NoDup (omap plot_key hs) ->
  NoDup (plotted (run host hs w).2).
Proof.
  intros Hw Hnd. destruct (run_plots hs w [] Hw Hnd) as (ks & -> & Hks).
  apply NoDup_fmap_2; [|done]. intros k1 k2. apply plot_file_inj.
Qed.

End Plots.

(** ** The further properties at concrete batches *)

Lemma example_pixels : Forall pixel (t_data Example.img).
Proof.
  unfold Example.img. cbn [t_data map].
  repeat (constructor; [eexists; split; [|reflexivity]; lia|]). constructor.
Qed.




(** X2 at a batch without ground truth: the image is converted, then the
    lookup of the attributes raises. *)
Lemma preprocess_is_not_atomic_example :
  exists d',
    (preprocess Example.batch Scenario.no_attributes).1 = Raise (KeyError "attributes")
    /\ heap (preprocess Example.batch Scenario.no_attributes).2 !! Example.batch = Some d'
    /\ d' !! "img"%string
       = Some (PyTensor (if half (v_args (self Scenario.no_attributes))
                         then Torch.half (Torch.to (v_device (self Scenario.no_attributes))
                                            Example.img)
                         else Torch.float (Torch.to (v_device (self Scenario.no_attributes))
                                             Example.img)))
    /\ d' !! "attributes"%string = None.
Proof.
  apply (preprocess_is_not_atomic Example.batch Scenario.no_attributes
           (delete "attributes"%string Example.fields)).
  - apply lookup_singleton_eq.
  - by vm_compute.
  - by vm_compute.
Defined.

(** X3 at the example: the 8-bit image in half precision. *)
Lemma preprocess_keeps_pixel_values_example :
  exists d' img',
    heap (preprocess Example.batch Example.start).2 !! Example.batch = Some d'
    /\ d' !! "img"%string = Some (PyTensor img')
    /\ map renorm (t_data img') = t_data Example.img
    /\ t_shape img' = t_shape Example.img
    /\ t_device img' = v_device (self Example.start)
    /\ t_dtype img'
       = (if half (v_args (self Example.start)) then torch_float16 else torch_float32).
Proof.
  apply (preprocess_keeps_pixel_values Example.batch Example.start Example.fields
           Example.img Example.attributes).
  - apply lookup_singleton_eq.
  - by vm_compute.
  - by vm_compute.
  - apply example_pixels.
Defined.

(** X4 at the example. *)
Lemma preprocess_twice_example :
  (do b <- preprocess Example.batch; preprocess b) Example.start
  = preprocess Example.batch Example.start.
Proof.
  apply (preprocess_twice Example.batch Example.start Example.fields
           Example.img Example.attributes).
  - apply lookup_singleton_eq.
  - by vm_compute.
  - by vm_compute.
  - right. apply example_pixels.
Defined.




(** X8 at a batch whose ground truth is still on the CPU, with the
    predictions on the device. *)
Lemma update_metrics_needs_one_device_example :
  update_metrics Example.host (PyTensor Example.preds) Example.batch Scenario.cpu_start
  = (Raise RuntimeError, Scenario.cpu_start).
Proof.
  apply (update_metrics_needs_one_device Example.host (PyTensor Example.preds)
           Example.batch 2 Scenario.cpu_start Example.wrapped Scenario.cpu_fields
           Scenario.cpu_attributes).
  - by vm_compute.
  - apply lookup_singleton_eq.
  - by vm_compute.
  - reflexivity.
  - by vm_compute.
  - by vm_compute.
Defined.

(** X9 at two images with the same stem: one label file for both. *)
Lemma update_metrics_label_files_collide_example :
  exists pi pj,
    saved_files
      (update_metrics Example.host (PyTensor Example.preds) Example.batch
         Scenario.same_stem_start).2
      !! (length (saved_files Scenario.same_stem_start) + 0)%nat = Some pi
    /\ saved_files
         (update_metrics Example.host (PyTensor Example.preds) Example.batch
            Scenario.same_stem_start).2
         !! (length (saved_files Scenario.same_stem_start) + 1)%nat = Some pj
    /\ pi = v_save_dir (self Scenario.same_stem_start)
            ++ ["labels"%string; Path_stem Example.host "a/x.jpg" +:+ ".txt"]
    /\ pj = v_save_dir (self Scenario.same_stem_start)
            ++ ["labels"%string; Path_stem Example.host "b/x.png" +:+ ".txt"]
    /\ (pi = pj <-> Path_stem Example.host "a/x.jpg" = Path_stem Example.host "b/x.png").
Proof.
  apply (update_metrics_label_files_collide Example.host (PyTensor Example.preds)
           Example.batch Scenario.same_stem_start
           (update_metrics Example.host (PyTensor Example.preds) Example.batch
              Scenario.same_stem_start).2
           Example.wrapped Scenario.same_stem_fields Scenario.same_stem_files 0 1).
  - by vm_compute.
  - reflexivity.
  - by vm_compute.
  - apply lookup_singleton_eq.
  - by vm_compute.
  - reflexivity.
  - reflexivity.
  - vm_compute. lia.
  - vm_compute. lia.
Defined.


(** X12 at a host with five keys and five mean results. *)
Lemma print_results_lines_up_with_header_example :
  (length [F32.one; F32.one; F32.zero; F32.one; F32.zero]
   = length (metrics_keys Scenario.host5 (v_metrics (self Example.start))) ->
   exists line,
     print_results Scenario.host5 Example.start
     = (Ok tt, add_trace [LogInfo line] Example.start)
     /\ String.length line
        = (22 + 11 * length [F32.one; F32.one; F32.zero; F32.one; F32.zero])%nat
     /\ (length [F32.one; F32.one; F32.zero; F32.one; F32.zero] = 5%nat ->
         String.length line = String.length get_desc))
  /\ (length [F32.one; F32.one; F32.zero; F32.one; F32.zero]
      <> length (metrics_keys Scenario.host5 (v_metrics (self Example.start))) ->
      print_results Scenario.host5 Example.start = (Raise TypeError, Example.start)).
Proof.
  apply (print_results_lines_up_with_header Scenario.host5 Example.start
           [F32.one; F32.one; F32.zero; F32.one; F32.zero]).
  - reflexivity.
  - repeat constructor; vm_compute; lia.
Defined.

(** X14 at the example: [update_metrics] leaves the batch as it is. *)
Lemma hooks_keep_the_batches_example :
  heap (call Example.host (Update_metrics (PyTensor Example.preds) Example.batch)
          Example.start).2
  = heap Example.start.
Proof.
  apply (hooks_keep_the_batches Example.host
           (Update_metrics (PyTensor Example.preds) Example.batch) Example.start).
  reflexivity.
Defined.

(** X17 at the example: the fresh list of weights after one update. *)
Lemma hooks_keep_recorded_arrays_example :
  match stat "weight" Example.start with
  | Some l =>
      exists xs,
        stat "weight"
          (call Example.host (Update_metrics (PyTensor Example.preds) Example.batch)
             Example.start).2 = Some (l ++ xs)
  | None =>
      stat "weight"
        (call Example.host (Update_metrics (PyTensor Example.preds) Example.batch)
           Example.start).2 = None
  end.
Proof.
  apply (hooks_keep_recorded_arrays Example.host
           (Update_metrics (PyTensor Example.preds) Example.batch) Example.start "weight").
  reflexivity.
Defined.





(** X22 at three plots of the example batch. *)
Lemma plots_never_overwrite_example :
  plotted (run Example.host Scenario.plots Example.start).2
  = [["runs"; "val"; "val_batch0_labels.jpg"]; ["runs"; "val"; "val_batch0_pred.jpg"];
     ["runs"; "val"; "val_batch1_labels.jpg"]]%string
  /\ NoDup (plotted (run Example.host Scenario.plots Example.start).2).
Proof.
  split; [by vm_compute|].
  apply (plots_never_overwrite Example.host Scenario.plots Example.start).
  - reflexivity.
  - cbn. repeat constructor; rewrite ?elem_of_cons, ?elem_of_nil; intros H;
      repeat destruct H as [H|H]; congruence.
Defined.


